(** * The model card of the launch scene: option derivation and launch sequencing

    A shallow embedding of [src/xinference/web/ui/src/scenes/launch_model/modelCard.js].

    The card is a React function component.  Its logic has three parts, which
    are embedded here in the order of the source:

    - three [useEffect] blocks that derive the format, size and quantization
      options from the catalog entry and the current selection (lines 33-73);
    - [launchModel], which guards on two shared flags and then runs a promise
      chain of two [fetch] calls (lines 75-123);
    - the event handlers and the [disabled] guard of the markup (lines 251-443).

    JavaScript built-ins the component calls ([Set], [parseFloat], [fetch],
    promises, [uuidv1], [JSON.stringify]) are modelled in the first modules. *)

From Stdlib Require Import Ascii String QArith Qcanon.
From stdpp Require Import base decidable numbers strings pretty list.

Close Scope Qc_scope.
Close Scope Q_scope.
Open Scope string_scope.

(** ** JavaScript numbers *)

Module JS.

(** A number is NaN, an infinity or a finite value.  Finite values are kept as
    exact canonical rationals: rounding to binary64 is not modelled, and there
    is a single zero (the sign of zero is observable by none of the operations
    the component uses: [===], [Set] membership and truthiness all identify
    the two zeros). *)
Inductive number : Type :=
  | NaN
  | Infinity (negative : bool)
  | Finite (q : Qc).

#[global] Instance number_eq_dec : EqDecision number.
Proof. solve_decision. Defined.

Definition of_Z (z : Z) : number := Finite (Q2Qc (inject_Z z)).

(** [a === b] on two numbers: NaN is different from everything, itself
    included. *)
Definition strict_eq (a b : number) : bool :=
  match a, b with
  | NaN, _ | _, NaN => false
  | _, _ => bool_decide (a = b)
  end.

(** ToBoolean on a number: zero and NaN are falsy. *)
Definition number_truthy (n : number) : bool :=
  match n with
  | NaN => false
  | Infinity _ => true
  | Finite q => negb (bool_decide (q = Q2Qc 0))
  end.

(** ToBoolean on a string: only the empty string is falsy. *)
Definition string_truthy (s : string) : bool :=
  match s with
  | EmptyString => false
  | String _ _ => true
  end.

(** *** parseFloat on a string

    Leading white space is skipped, then the longest prefix that is a decimal
    literal (sign, digits, fraction, exponent, or [Infinity]) is read; what
    follows is ignored, and NaN is the answer when no digit can be read. *)

Definition is_white_space (c : ascii) : bool :=
  let n := nat_of_ascii c in
  bool_decide (n = 32%nat) || (bool_decide (9 ≤ n)%nat && bool_decide (n ≤ 13)%nat).

Fixpoint trim_start (s : string) : string :=
  match s with
  | String c t => if is_white_space c then trim_start t else s
  | EmptyString => s
  end.

Definition digit_value (c : ascii) : option Z :=
  let n := nat_of_ascii c in
  if bool_decide (48 ≤ n)%nat && bool_decide (n ≤ 57)%nat
  then Some (Z.of_nat n - 48)%Z else None.

(** Reads a run of digits: the value read so far, how many digits were read,
    and the rest of the string. *)
Fixpoint read_digits (s : string) (acc : Z) (count : nat) : Z * nat * string :=
  match s with
  | String c t =>
      match digit_value c with
      | Some d => read_digits t (acc * 10 + d)%Z (S count)
      | None => (acc, count, s)
      end
  | EmptyString => (acc, count, s)
  end.

Definition read_sign (s : string) : bool * string :=
  match s with
  | String "-" t => (true, t)
  | String "+" t => (false, t)
  | _ => (false, s)
  end.

Definition read_exponent (s : string) : Z :=
  match s with
  | String c t =>
      if bool_decide (c = "e"%char) || bool_decide (c = "E"%char) then
        let '(neg, t') := read_sign t in
        let '(e, n, _) := read_digits t' 0%Z 0%nat in
        match n with
        | O => 0%Z
        | S _ => if neg then (- e)%Z else e
        end
      else 0%Z
  | EmptyString => 0%Z
  end.

(** [mantissa * 10 ^ exponent] as a canonical rational. *)
Definition scale10 (mantissa exponent : Z) : Qc :=
  if bool_decide (0 ≤ exponent)%Z
  then Q2Qc (inject_Z (mantissa * 10 ^ exponent))
  else Q2Qc (Qmake mantissa (Z.to_pos (10 ^ (- exponent)))).

Definition parseFloat_string (input : string) : number :=
  let '(neg, s) := read_sign (trim_start input) in
  if String.prefix "Infinity" s then Infinity neg else
  let '(ip, ni, s1) := read_digits s 0%Z 0%nat in
  let '(m, nf, s2) :=
    match s1 with
    | String "." t => read_digits t ip 0%nat
    | _ => (ip, 0%nat, s1)
    end in
  match (ni + nf)%nat with
  | O => NaN
  | S _ =>
      let e := read_exponent s2 in
      Finite (scale10 (if neg then - m else m)%Z (e - Z.of_nat nf)%Z)
  end.

(** *** Set

    A [Set] keeps its elements in insertion order; [add] of an element that is
    already present (up to SameValueZero, which is equality in this model)
    leaves the set as it is.  Spreading a set into an array literal lists the
    elements in that order. *)
Section SetObject.
Context {A : Type} `{EqDecision A}.

Definition Set_has (s : list A) (x : A) : bool := bool_decide (x ∈ s).

Definition Set_add (s : list A) (x : A) : list A :=
  if Set_has s x then s else s ++ [x].

(** [new Set(iterable)] adds the elements one after the other. *)
Definition new_Set (iterable : list A) : list A :=
  fold_left Set_add iterable [].

(** [[...set]] *)
Definition spread (s : list A) : list A := s.

(** [x] occurs in [l] at index [i] and nowhere before. *)
Definition first_seen_at (l : list A) (x : A) (i : nat) : Prop :=
  l !! i = Some x ∧ ∀ k, k < i → l !! k ≠ Some x.
End SetObject.

End JS.

(** ** Data model *)

(** An element of [modelData.model_specs]. *)
Module VariantSpec.
Record t : Type := {
  model_format : string;
  model_size_in_billions : JS.number;
  quantizations : list string;
}.
End VariantSpec.

(** The [modelData] prop: one model family of the catalog. *)
Module ModelData.
Record t : Type := {
  model_name : string;
  model_description : string;
  model_ability : list string;
  context_length : JS.number;
  is_builtin : bool;
  model_specs : list VariantSpec.t;
}.
End ModelData.

(** What the [modelSize] state can hold: the empty string it starts with, or
    the [value] of the menu item that was picked (the catalog's number, or its
    text when the select hands out strings). *)
Inductive SizeValue : Type :=
  | SizeString (s : string)
  | SizeNumber (n : JS.number).

#[global] Instance SizeValue_eq_dec : EqDecision SizeValue.
Proof. solve_decision. Defined.

(** ToBoolean of a [modelSize] value. *)
Definition truthy (v : SizeValue) : bool :=
  match v with
  | SizeString s => JS.string_truthy s
  | SizeNumber n => JS.number_truthy n
  end.

(** [parseFloat(v)] converts [v] to a string and parses it.  The string of a
    number parses back to that number, so on a number the result is the number
    itself. *)
Definition parseFloat (v : SizeValue) : JS.number :=
  match v with
  | SizeString s => JS.parseFloat_string s
  | SizeNumber n => n
  end.

(** The object literal [modelDataWithID] of [launchModel]. *)
Module ModelDataWithID.
Record t : Type := {
  model_uid : string;
  model_name : string;
  model_format : string;
  model_size_in_billions : SizeValue;
  quantization : string;
}.
End ModelDataWithID.

(** The text [JSON.stringify(o)]; serialisation itself is not modelled, the
    text is identified by the object it was made from. *)
Inductive JSONText : Type :=
  | JSON_stringify (o : ModelDataWithID.t).

(** ** The host: fetch, promises, the shared flags *)

Inductive JSError : Type :=
  | TypeError (message : string)
  | SyntaxError (message : string)
  | DOMException (name message : string).

(** The [init] argument of [fetch] together with the URL. *)
Record Request : Type := {
  req_url : string;
  method : string;
  headers : list (string * string);
  body : JSONText;
}.

(** What the component can observe of a [Response]: its status, and whether
    its body is JSON text. *)
Record Response : Type := {
  status : nat;
  body_is_json : bool;
}.

(** How the network answers one [fetch]. *)
Inductive NetOutcome : Type :=
  | NeverSettles
  | Resolves (r : Response)
  | RejectsWith (e : JSError).

Inductive Promise : Type :=
  | FetchPromise (req : Request) (outcome : NetOutcome)
  | JsonPromise (r : Response).

(** Values that flow through the promise chain of [launchModel]. *)
Inductive Value : Type :=
  | VUndefined
  | VResponse (r : Response)
  | VJson
  | VPromise (p : Promise).

Inductive Settled : Type :=
  | Fulfilled (v : Value)
  | Rejected (e : JSError).

(** The state a promise settles in, if it ever does. *)
Definition fate (p : Promise) : option Settled :=
  match p with
  | FetchPromise _ NeverSettles => None
  | FetchPromise _ (Resolves r) => Some (Fulfilled (VResponse r))
  | FetchPromise _ (RejectsWith e) => Some (Rejected e)
  | JsonPromise r =>
      if body_is_json r then Some (Fulfilled VJson)
      else Some (Rejected (SyntaxError "Unexpected token"))
  end.

(** What a run does to the outside and what reaches it from there, in order:
    the setter of the shared flag is called; a request is sent; a promise the
    chain was waiting for settles (for a fetch: the response, or the failure,
    has arrived); [response.json()] is called; a window is opened; an error
    is written to the console. *)
Inductive Effect : Type :=
  | SetIsCallingApi (b : bool)
  | Fetch (req : Request)
  | Settle (p : Promise)
  | ResponseJson (r : Response)
  | WindowOpen (target_url target features : string)
  | ConsoleError (label : string) (e : JSError).

(** The two flags of [ApiContext]. *)
Record ApiContext : Type := {
  isCallingApi : bool;
  isUpdatingModel : bool;
}.

(** The world a handler runs in: the shared flags, the id generator (the
    ids it will hand out and how many it has handed out), the answers the
    network will give to the coming [fetch] calls, and the trace so far. *)
Record World : Type := {
  api : ApiContext;
  uuid_source : nat -> string;
  uuid_count : nat;
  network : list NetOutcome;
  trace : list Effect;
}.

Inductive Result (A : Type) : Type :=
  | Ok (a : A)
  | Thrown (e : JSError).
Arguments Ok {A} a.
Arguments Thrown {A} e.

(** Computations that read and change the world and may throw. *)
Definition M (A : Type) : Type := World -> Result A * World.

#[global] Instance M_ret : MRet M := fun A a w => (Ok a, w).

#[global] Instance M_bind : MBind M := fun A B k m w =>
  match m w with
  | (Ok a, w') => k a w'
  | (Thrown e, w') => (Thrown e, w')
  end.

Definition throw {A} (e : JSError) : M A := fun w => (Thrown e, w).

Definition emit (e : Effect) : M unit :=
  fun w =>
    (Ok tt, {| api := api w; uuid_source := uuid_source w;
               uuid_count := uuid_count w; network := network w;
               trace := trace w ++ [e] |}).

(** The setter the context provides. *)
Definition setIsCallingApi (b : bool) : M unit :=
  fun w =>
    (Ok tt, {| api := {| isCallingApi := b;
                         isUpdatingModel := isUpdatingModel (api w) |};
               uuid_source := uuid_source w; uuid_count := uuid_count w;
               network := network w;
               trace := trace w ++ [SetIsCallingApi b] |}).

(** [uuidv1()]: the next id of the generator. *)
Definition uuidv1 : M string :=
  fun w =>
    (Ok (uuid_source w (uuid_count w)),
     {| api := api w; uuid_source := uuid_source w;
        uuid_count := S (uuid_count w); network := network w;
        trace := trace w |}).

(** [fetch(url, init)]: the request goes out at once, and a promise comes
    back whose fate is the next answer of the network (none left: it never
    settles).  The answer is seen only where the promise is waited for. *)
Definition fetch (req : Request) : M Promise :=
  fun w =>
    let outcome := match network w with [] => NeverSettles | o :: _ => o end in
    (Ok (FetchPromise req outcome),
     {| api := api w; uuid_source := uuid_source w;
        uuid_count := uuid_count w; network := tail (network w);
        trace := trace w ++ [Fetch req] |}).

(** [response.json()] starts decoding the body and returns a promise. *)
Definition Response_json (v : Value) : M Promise :=
  match v with
  | VResponse r => emit (ResponseJson r);; mret (JsonPromise r)
  | _ => throw (TypeError "response.json is not a function")
  end.

Definition window_open (target_url target features : string) : M unit :=
  emit (WindowOpen target_url target features).

Definition console_error (label : string) (e : JSError) : M unit :=
  emit (ConsoleError label e).

(** *** Promise chains

    [p.then(f1).then(f2)....catch(h)] is a list of links.  A fulfilled value
    runs the next [Then] handler and skips [Catch] links; a rejection skips
    [Then] links and runs the next [Catch] handler.  What a handler returns
    fulfils the next promise, unless it is itself a promise, which is then
    waited for; what a handler throws rejects the next promise. *)
Inductive Link : Type :=
  | Then (onFulfilled : Value -> M Value)
  | Catch (onRejected : JSError -> M Value).

(** Waiting for [p]: if it settles, the settlement is observed and the
    continuation runs; if it never does, nothing more happens. *)
Definition await (p : Promise) (k : Settled -> M unit) : M unit :=
  match fate p with
  | None => mret tt
  | Some s => emit (Settle p);; k s
  end.

(** Runs a handler and passes its completion on to the rest of the chain. *)
Definition run_handler (h : M Value) (k : Settled -> M unit) : M unit :=
  fun w =>
    match h w with
    | (Ok (VPromise p), w') => await p k w'
    | (Ok v, w') => k (Fulfilled v) w'
    | (Thrown e, w') => k (Rejected e) w'
    end.

Fixpoint propagate (links : list Link) (s : Settled) : M unit :=
  match links, s with
  | [], _ => mret tt
  | Then f :: rest, Fulfilled v => run_handler (f v) (propagate rest)
  | Then _ :: rest, Rejected _ => propagate rest s
  | Catch _ :: rest, Fulfilled _ => propagate rest s
  | Catch h :: rest, Rejected e => run_handler (h e) (propagate rest)
  end.

Definition chain (p : Promise) (links : list Link) : M unit :=
  await p (propagate links).

(** ** The component *)

Record Props : Type := {
  url : string;
  modelData : option ModelData.t;
}.

(** The [useState] cells of a card. *)
Record State : Type := {
  hover : bool;
  selected : bool;
  modelFormat : string;
  modelSize : SizeValue;
  quantization : string;
  formatOptions : list string;
  sizeOptions : list JS.number;
  quantizationOptions : list string;
}.

Definition initial_state : State :=
  {| hover := false; selected := false;
     modelFormat := ""; modelSize := SizeString ""; quantization := "";
     formatOptions := []; sizeOptions := []; quantizationOptions := [] |}.

Definition setHover (b : bool) (st : State) : State :=
  {| hover := b; selected := selected st;
     modelFormat := modelFormat st; modelSize := modelSize st;
     quantization := quantization st; formatOptions := formatOptions st;
     sizeOptions := sizeOptions st;
     quantizationOptions := quantizationOptions st |}.

Definition setSelected (b : bool) (st : State) : State :=
  {| hover := hover st; selected := b;
     modelFormat := modelFormat st; modelSize := modelSize st;
     quantization := quantization st; formatOptions := formatOptions st;
     sizeOptions := sizeOptions st;
     quantizationOptions := quantizationOptions st |}.

Definition setModelFormat (v : string) (st : State) : State :=
  {| hover := hover st; selected := selected st;
     modelFormat := v; modelSize := modelSize st;
     quantization := quantization st; formatOptions := formatOptions st;
     sizeOptions := sizeOptions st;
     quantizationOptions := quantizationOptions st |}.

Definition setModelSize (v : SizeValue) (st : State) : State :=
  {| hover := hover st; selected := selected st;
     modelFormat := modelFormat st; modelSize := v;
     quantization := quantization st; formatOptions := formatOptions st;
     sizeOptions := sizeOptions st;
     quantizationOptions := quantizationOptions st |}.

Definition setQuantization (v : string) (st : State) : State :=
  {| hover := hover st; selected := selected st;
     modelFormat := modelFormat st; modelSize := modelSize st;
     quantization := v; formatOptions := formatOptions st;
     sizeOptions := sizeOptions st;
     quantizationOptions := quantizationOptions st |}.

Definition setFormatOptions (v : list string) (st : State) : State :=
  {| hover := hover st; selected := selected st;
     modelFormat := modelFormat st; modelSize := modelSize st;
     quantization := quantization st; formatOptions := v;
     sizeOptions := sizeOptions st;
     quantizationOptions := quantizationOptions st |}.

Definition setSizeOptions (v : list JS.number) (st : State) : State :=
  {| hover := hover st; selected := selected st;
     modelFormat := modelFormat st; modelSize := modelSize st;
     quantization := quantization st; formatOptions := formatOptions st;
     sizeOptions := v;
     quantizationOptions := quantizationOptions st |}.

Definition setQuantizationOptions (v : list string) (st : State) : State :=
  {| hover := hover st; selected := selected st;
     modelFormat := modelFormat st; modelSize := modelSize st;
     quantization := quantization st; formatOptions := formatOptions st;
     sizeOptions := sizeOptions st;
     quantizationOptions := v |}.

(** *** Option derivation (lines 33-73)

    Each effect reads the selection and the catalog entry of the render it
    belongs to and writes one option list. *)

(** Lines 33-41. *)
Definition formatOptions_effect (modelData : option ModelData.t) (st : State) : State :=
  match modelData with
  | Some md =>
      let modelFamily := ModelData.model_specs md in
      let formats :=
        JS.spread (JS.new_Set (map VariantSpec.model_format modelFamily)) in
      setFormatOptions formats st
  | None => st
  end.

(** Lines 43-55. *)
Definition sizeOptions_effect (modelData : option ModelData.t) (st : State) : State :=
  if JS.string_truthy (modelFormat st) then
    match modelData with
    | Some md =>
        let modelFamily := ModelData.model_specs md in
        let sizes :=
          JS.spread (JS.new_Set
            (map VariantSpec.model_size_in_billions
               (filter (λ spec, VariantSpec.model_format spec = modelFormat st)
                  modelFamily))) in
        setSizeOptions sizes st
    | None => st
    end
  else st.

(** Lines 57-73. *)
Definition quantizationOptions_effect (modelData : option ModelData.t) (st : State) : State :=
  if JS.string_truthy (modelFormat st) && truthy (modelSize st) then
    match modelData with
    | Some md =>
        let modelFamily := ModelData.model_specs md in
        let quants :=
          JS.spread (JS.new_Set
            (filter
               (λ spec, VariantSpec.model_format spec = modelFormat st
                        ∧ JS.strict_eq (VariantSpec.model_size_in_billions spec)
                                       (parseFloat (modelSize st)))
               modelFamily
             ≫= VariantSpec.quantizations)) in
        setQuantizationOptions quants st
    | None => st
    end
  else st.

(** An effect runs after the first render, and after a later render when one
    of its dependencies differs from the render before.  The catalog entry is
    the same object for the life of the card, so only the selection can make a
    dependency list differ. *)
Definition deps_changed {D : Type} `{EqDecision D} (deps : State -> D)
    (prev : option State) (st : State) : bool :=
  match prev with
  | None => true
  | Some st0 => negb (bool_decide (deps st0 = deps st))
  end.

Definition run_effects (p : Props) (prev : option State) (st : State) : State :=
  let st1 :=
    if deps_changed (λ _, tt) prev st
    then formatOptions_effect (modelData p) st else st in
  let st2 :=
    if deps_changed modelFormat prev st
    then sizeOptions_effect (modelData p) st1 else st1 in
  if deps_changed (λ s, (modelFormat s, modelSize s)) prev st
  then quantizationOptions_effect (modelData p) st2 else st2.

(** The card after it is first rendered. *)
Definition mount (p : Props) : State := run_effects p None initial_state.

(** *** launchModel (lines 75-123)

    [ctx] and [st] are the context values and the state of the render the
    closure was made in. *)
Definition launchModel (ctx : ApiContext) (p : Props) (st : State) (url : string) : M unit :=
  if isCallingApi ctx || isUpdatingModel ctx then mret tt else
  setIsCallingApi true;;
  uuid ← uuidv1;
  name ← match modelData p with
         | Some md => mret (ModelData.model_name md)
         | None => throw (TypeError "modelData is undefined")
         end;
  let modelDataWithID :=
    {| ModelDataWithID.model_uid := uuid;
       ModelDataWithID.model_name := name;
       ModelDataWithID.model_format := modelFormat st;
       ModelDataWithID.model_size_in_billions := modelSize st;
       ModelDataWithID.quantization := quantization st |} in
  (* First fetch request to initiate the model *)
  first ← fetch {| req_url := url ++ "/v1/models";
                   method := "POST";
                   headers := [("Content-Type", "application/json")];
                   body := JSON_stringify modelDataWithID |};
  chain first
    [ Then (λ response, Response_json response;; mret VUndefined);
      (* Second fetch request to build the gradio page *)
      Then (λ _,
        second ← fetch {| req_url := url ++ "/v1/ui/" ++ uuid;
                          method := "POST";
                          headers := [("Content-Type", "application/json")];
                          body := JSON_stringify modelDataWithID |};
        mret (VPromise second));
      Then (λ response, Response_json response;; mret VUndefined);
      Then (λ _,
        window_open (url ++ "/" ++ uuid) "_blank" "noreferrer";;
        setIsCallingApi false;;
        mret VUndefined);
      Catch (λ error,
        console_error "Error:" error;;
        setIsCallingApi false;;
        mret VUndefined) ].

(** *** Markup: guards and handlers (lines 251-443) *)

(** The condition both the [disabled] attribute of the launch button and its
    icon test (lines 384-389). *)
Definition selection_complete (p : Props) (st : State) : bool :=
  JS.string_truthy (modelFormat st)
  && truthy (modelSize st)
  && match modelData p with
     | Some md =>
         JS.string_truthy (quantization st)
         || (negb (ModelData.is_builtin md)
             && negb (bool_decide (modelFormat st = "pytorch")))
     | None => false
     end.

(** Lines 380-390. *)
Definition launch_disabled (ctx : ApiContext) (p : Props) (st : State) : bool :=
  isCallingApi ctx || isUpdatingModel ctx || negb (selection_complete p st).

(** [disabled] of the size select (line 336). *)
Definition size_select_disabled (st : State) : bool :=
  negb (JS.string_truthy (modelFormat st)).

(** The condition under which the quantization select is rendered at all
    (line 352). *)
Definition quantization_select_shown (md : ModelData.t) (st : State) : bool :=
  ModelData.is_builtin md || bool_decide (modelFormat st = "pytorch").

(** [disabled] of the quantization select (line 357). *)
Definition quantization_select_disabled (st : State) : bool :=
  negb (JS.string_truthy (modelFormat st)) || negb (truthy (modelSize st)).

(** What the launch button shows (lines 392-429): a spinner, a rocket on a
    grey ground, or a black rocket. *)
Inductive LaunchIcon : Type :=
  | Spinner
  | GreyRocket
  | BlackRocket.

Definition launch_icon (ctx : ApiContext) (p : Props) (st : State) : LaunchIcon :=
  if isCallingApi ctx || isUpdatingModel ctx then Spinner
  else if negb (selection_complete p st) then GreyRocket
  else BlackRocket.

(** [onClick] of the outer box (lines 256-260); a click on anything inside the
    card bubbles up to it. *)
Definition Box_onClick (render : State) (st : State) : State :=
  if negb (selected render) then setSelected true st else st.

Inductive Event : Type :=
  | MouseEnter
  | MouseLeave
  | ClickCard
  | ChangeFormat (value : string)
  | ChangeSize (value : SizeValue)
  | ChangeQuantization (value : string)
  | ClickLaunch
  | ClickUndo.

(** The handlers an event reaches, innermost first.  Every handler is a closure
    of the same render [st], which has read the context as it is when the event
    arrives; the state updates they ask for are applied in order.  The two
    buttons are children of the box, so a click on one of them goes on to
    [Box_onClick]; a disabled button receives no click.

    The promise chain a launch starts is run to its end within the click: its
    callbacks read and write nothing of the card's state, so the events that
    may come in between change nothing of what it does. *)
Definition handle (p : Props) (e : Event) (st : State) : M State :=
  match e with
  | MouseEnter => mret (setHover true st)
  | MouseLeave => mret (setHover false st)
  | ClickCard => mret (Box_onClick st st)
  | ChangeFormat v => mret (setModelFormat v st)
  | ChangeSize v => mret (setModelSize v st)
  | ChangeQuantization v => mret (setQuantization v st)
  | ClickLaunch =>
      λ w,
        let ctx := api w in
        if launch_disabled ctx p st then (Ok st, w)
        else (launchModel ctx p st (url p);; mret (Box_onClick st st)) w
  | ClickUndo => mret (Box_onClick st (setSelected false st))
  end.

(** An event, then the render it causes and the effects of that render. *)
Definition dispatch (p : Props) (e : Event) (st : State) : M State :=
  st' ← handle p e st;
  mret (run_effects p (Some st) st').

(** A sequence of events, each handled in the state the one before left. *)
Fixpoint dispatch_all (p : Props) (es : list Event) (st : State) : M State :=
  match es with
  | [] => mret st
  | e :: es' => st' ← dispatch p e st; dispatch_all p es' st'
  end.

(** ** Reading a trace *)

(** What a computation adds to the trace. *)
Definition effects_of {A} (m : M A) (w : World) : list Effect :=
  drop (length (trace w)) (trace (m w).2).

(** The requests a trace holds. *)
Definition requests (t : list Effect) : list Request :=
  omap (λ e, match e with Fetch r => Some r | _ => None end) t.

(** The fetch promises that have settled, with the request of each. *)
Definition settled_fetches (t : list Effect) : list (Request * NetOutcome) :=
  omap (λ e, match e with
             | Settle (FetchPromise req o) => Some (req, o)
             | _ => None
             end) t.

(** The responses a run has received to its requests. *)
Definition responses_received (t : list Effect) : list Response :=
  omap (λ e, match e with
             | Settle (FetchPromise _ (Resolves r)) => Some r
             | _ => None
             end) t.

(** The errors a run has written to the console. *)
Definition errors_logged (t : list Effect) : list JSError :=
  omap (λ e, match e with ConsoleError _ err => Some err | _ => None end) t.

(** The body of the two requests of a launch from the render [st] with the id
    [uuid], and a POST request with the headers [launchModel] sets. *)
Definition launch_body (md : ModelData.t) (st : State) (uuid : string) : JSONText :=
  JSON_stringify
    {| ModelDataWithID.model_uid := uuid;
       ModelDataWithID.model_name := ModelData.model_name md;
       ModelDataWithID.model_format := modelFormat st;
       ModelDataWithID.model_size_in_billions := modelSize st;
       ModelDataWithID.quantization := quantization st |}.

Definition post (target : string) (payload : JSONText) : Request :=
  {| req_url := target; method := "POST";
     headers := [("Content-Type", "application/json")]; body := payload |}.

(** ** A catalog entry and a world to run the card in *)

Module Sample.

Definition variant (format : string) (size : Z) (quants : list string) : VariantSpec.t :=
  {| VariantSpec.model_format := format;
     VariantSpec.model_size_in_billions := JS.of_Z size;
     VariantSpec.quantizations := quants |}.

Definition llama : ModelData.t :=
  {| ModelData.model_name := "llama-2-chat";
     ModelData.model_description := "A chat model";
     ModelData.model_ability := ["chat"];
     ModelData.context_length := JS.of_Z 4096;
     ModelData.is_builtin := true;
     ModelData.model_specs :=
       [ variant "pytorch" 7 ["int4"; "int8"];
         variant "pytorch" 13 ["int4"];
         variant "ggmlv3" 13 ["q4_0"] ] |}.

Definition props : Props :=
  {| url := "http://localhost:9997"; modelData := Some llama |}.

Definition idle : ApiContext :=
  {| isCallingApi := false; isUpdatingModel := false |}.

(** A world with the given flags in which the network gives the answers
    [net]. *)
Definition world (ctx : ApiContext) (net : list NetOutcome) : World :=
  {| api := ctx; uuid_source := λ n, "uuid-" ++ pretty n; uuid_count := 0;
     network := net; trace := [] |}.

(** The card after pytorch, 7 and int4 have been picked. *)
Definition configured : State :=
  {| hover := false; selected := true;
     modelFormat := "pytorch"; modelSize := SizeNumber (JS.of_Z 7);
     quantization := "int4";
     formatOptions := ["pytorch"; "ggmlv3"];
     sizeOptions := [JS.of_Z 7; JS.of_Z 13];
     quantizationOptions := ["int4"; "int8"] |}.

Definition ok : Response := {| status := 200; body_is_json := true |}.
Definition server_error : Response := {| status := 500; body_is_json := true |}.
Definition not_json : Response := {| status := 200; body_is_json := false |}.

End Sample.

(** * Facts *)

(** ** Sets keep first occurrences *)
Section SetFacts.
Context {A : Type} `{EqDecision A}.
Implicit Types (l s : list A) (x y : A).

Lemma new_Set_snoc l x : JS.new_Set (l ++ [x]) = JS.Set_add (JS.new_Set l) x.
Proof. unfold JS.new_Set. by rewrite fold_left_app. Qed.

Lemma elem_of_Set_add s x y : y ∈ JS.Set_add s x ↔ y ∈ s ∨ y = x.
Proof.
  unfold JS.Set_add, JS.Set_has. case_bool_decide as Hx.
  - split; [by left | intros [?| ->]; done].
  - rewrite elem_of_app, list_elem_of_singleton. done.
Qed.

Lemma elem_of_new_Set l x : x ∈ JS.new_Set l ↔ x ∈ l.
Proof.
  induction l as [| y l IH] using rev_ind.
  - done.
  - rewrite new_Set_snoc, elem_of_Set_add, elem_of_app, list_elem_of_singleton.
    by rewrite IH.
Qed.

Lemma NoDup_new_Set l : NoDup (JS.new_Set l).
Proof.
  induction l as [| y l IH] using rev_ind.
  - constructor.
  - rewrite new_Set_snoc. unfold JS.Set_add, JS.Set_has.
    case_bool_decide as Hy; [done |].
    apply NoDup_app. split_and!; [done | | apply NoDup_singleton].
    intros z Hz ->%list_elem_of_singleton. done.
Qed.

Lemma first_seen_at_app l l' x i : JS.first_seen_at l x i → JS.first_seen_at (l ++ l') x i.
Proof.
  intros [Hi Hbefore]. pose proof (lookup_lt_Some _ _ _ Hi) as Hlt. split.
  - by rewrite lookup_app_l.
  - intros k Hk. rewrite lookup_app_l by lia. by apply Hbefore.
Qed.

Lemma first_seen_at_fresh l x : x ∉ l → JS.first_seen_at (l ++ [x]) x (length l).
Proof.
  intros Hx. split.
  - by rewrite list_lookup_middle.
  - intros k Hk Hlook. rewrite lookup_app_l in Hlook by done.
    apply Hx. eapply list_elem_of_lookup_2. exact Hlook.
Qed.

Lemma elem_of_first_seen l x : x ∈ l → ∃ i, JS.first_seen_at l x i.
Proof.
  induction l as [| y l IH] using rev_ind; [by intros ?%elem_of_nil |].
  destruct (decide (x ∈ l)) as [Hin | Hnin].
  - intros _. destruct (IH Hin) as [i Hi]. exists i. by apply first_seen_at_app.
  - rewrite elem_of_app, list_elem_of_singleton. intros [? | ->]; [done |].
    exists (length l). by apply first_seen_at_fresh.
Qed.

(** The elements of [new Set(l)] stand in the order in which they first
    occur in [l]. *)
Lemma new_Set_first_seen_order l i j x y :
  JS.new_Set l !! i = Some x → JS.new_Set l !! j = Some y → (i < j)%nat →
  ∃ a b, JS.first_seen_at l x a ∧ JS.first_seen_at l y b ∧ (a < b)%nat.
Proof.
  revert i j x y. induction l as [| z l IH] using rev_ind; intros i j x y.
  - done.
  - rewrite new_Set_snoc. unfold JS.Set_add, JS.Set_has.
    case_bool_decide as Hz.
    + intros Hi Hj Hlt. destruct (IH _ _ _ _ Hi Hj Hlt) as (a & b & Ha & Hb & Hab).
      exists a, b. split_and!; [by apply first_seen_at_app .. | done].
    + intros Hi Hj Hlt.
      pose proof (lookup_lt_Some _ _ _ Hj) as Hjlen.
      rewrite length_app in Hjlen. simpl in Hjlen.
      rewrite lookup_app_l in Hi by lia.
      destruct (decide (j < length (JS.new_Set l))%nat) as [Hjl | Hjl].
      * rewrite lookup_app_l in Hj by done.
        destruct (IH _ _ _ _ Hi Hj Hlt) as (a & b & Ha & Hb & Hab).
        exists a, b. split_and!; [by apply first_seen_at_app .. | done].
      * rewrite lookup_app_r in Hj by lia.
        assert (j - length (JS.new_Set l) = 0)%nat as Hz0 by lia.
        rewrite Hz0 in Hj. simpl in Hj. injection Hj as <-.
        assert (x ∈ l) as Hxl.
        { apply elem_of_new_Set. eapply list_elem_of_lookup_2. exact Hi. }
        destruct (elem_of_first_seen _ _ Hxl) as [a Ha].
        exists a, (length l). split_and!.
        -- by apply first_seen_at_app.
        -- apply first_seen_at_fresh. by rewrite <- elem_of_new_Set.
        -- destruct Ha as [Ha _]. by eapply lookup_lt_Some.
Qed.
End SetFacts.

(** ** Truthiness and strict equality *)

Lemma string_truthy_spec (s : string) : JS.string_truthy s = true ↔ s ≠ "".
Proof. destruct s; simpl; split; congruence. Qed.

Lemma strict_eq_spec (a b : JS.number) :
  JS.strict_eq a b = true ↔ a = b ∧ a ≠ JS.NaN.
Proof.
  unfold JS.strict_eq.
  destruct a, b; rewrite ?bool_decide_eq_true; split;
    (congruence || (intros [? ?]; congruence) || (intros ?; split; congruence)).
Qed.

(** ** Option derivation *)

Section Derivation.
Variable md : ModelData.t.
Variable st : State.

Let specs := ModelData.model_specs md.

Lemma formatOptions_effect_eq :
  formatOptions (formatOptions_effect (Some md) st)
  = JS.new_Set (map VariantSpec.model_format specs).
Proof. reflexivity. Qed.

Lemma sizeOptions_effect_eq :
  modelFormat st ≠ "" →
  sizeOptions (sizeOptions_effect (Some md) st)
  = JS.new_Set
      (map VariantSpec.model_size_in_billions
         (filter (λ spec, VariantSpec.model_format spec = modelFormat st) specs)).
Proof.
  intros Hf%string_truthy_spec. unfold sizeOptions_effect. by rewrite Hf.
Qed.

Lemma quantizationOptions_effect_eq :
  modelFormat st ≠ "" → truthy (modelSize st) = true →
  quantizationOptions (quantizationOptions_effect (Some md) st)
  = JS.new_Set
      (filter
         (λ spec, VariantSpec.model_format spec = modelFormat st
                  ∧ JS.strict_eq (VariantSpec.model_size_in_billions spec)
                                 (parseFloat (modelSize st)))
         specs
       ≫= VariantSpec.quantizations).
Proof.
  intros Hf%string_truthy_spec Hs. unfold quantizationOptions_effect.
  by rewrite Hf, Hs.
Qed.

(** With no format chosen the size options are left as they were, and with
    no format or no size chosen so are the quantization options. *)
Lemma sizeOptions_effect_stale :
  modelFormat st = "" → sizeOptions_effect (Some md) st = st.
Proof. intros Hf. unfold sizeOptions_effect. by rewrite Hf. Qed.

Lemma quantizationOptions_effect_stale :
  modelFormat st = "" ∨ truthy (modelSize st) = false →
  quantizationOptions_effect (Some md) st = st.
Proof.
  unfold quantizationOptions_effect. intros [Hf | Hs].
  - by rewrite Hf.
  - rewrite Hs. by rewrite andb_false_r.
Qed.
End Derivation.

(** C7. The format options hold the formats of the catalog's variants, each
    once, in the order in which the catalog first shows them; and once a
    format is chosen, the size options hold exactly the sizes of the variants
    of that format, each once. *)
Theorem format_and_size_options (md : ModelData.t) (st : State) :
  let specs := ModelData.model_specs md in
  let formats := formatOptions (formatOptions_effect (Some md) st) in
  (NoDup formats
   ∧ (∀ f, f ∈ formats ↔ ∃ spec, spec ∈ specs ∧ VariantSpec.model_format spec = f)
   ∧ (∀ i j f g,
        formats !! i = Some f → formats !! j = Some g → i < j →
        ∃ a b, JS.first_seen_at (map VariantSpec.model_format specs) f a
               ∧ JS.first_seen_at (map VariantSpec.model_format specs) g b
               ∧ a < b))
  ∧ (modelFormat st ≠ "" →
     let sizes := sizeOptions (sizeOptions_effect (Some md) st) in
     NoDup sizes
     ∧ ∀ s, s ∈ sizes ↔
            ∃ spec, spec ∈ specs
                    ∧ VariantSpec.model_format spec = modelFormat st
                    ∧ VariantSpec.model_size_in_billions spec = s).
Proof.
  intros specs formats. split; [split_and! |].
  - apply NoDup_new_Set.
  - intros f. subst formats. rewrite formatOptions_effect_eq, elem_of_new_Set.
    rewrite list_elem_of_In, in_map_iff. setoid_rewrite <- list_elem_of_In.
    split; [intros (spec & <- & Hin) | intros (spec & Hin & <-)]; eauto.
  - intros i j f g. apply new_Set_first_seen_order.
  - intros Hf sizes. subst sizes. rewrite (sizeOptions_effect_eq _ _ Hf). split.
    + apply NoDup_new_Set.
    + intros s. rewrite elem_of_new_Set, list_elem_of_In, in_map_iff.
      setoid_rewrite <- list_elem_of_In. setoid_rewrite list_elem_of_filter.
      fold specs.
      split; [intros (spec & <- & Hfmt & Hin) | intros (spec & Hin & Hfmt & <-)];
        eauto.
Qed.

(** C6. Once a format and a size are chosen, the quantization options hold
    exactly the quantizations of the variants that have the chosen format and
    whose size is the number the chosen size parses to, each once. *)
Theorem quantization_options (md : ModelData.t) (st : State) :
  modelFormat st ≠ "" → truthy (modelSize st) = true →
  let quants := quantizationOptions (quantizationOptions_effect (Some md) st) in
  NoDup quants
  ∧ ∀ q, q ∈ quants ↔
         ∃ spec, spec ∈ ModelData.model_specs md
                 ∧ VariantSpec.model_format spec = modelFormat st
                 ∧ JS.strict_eq (VariantSpec.model_size_in_billions spec)
                                (parseFloat (modelSize st)) = true
                 ∧ q ∈ VariantSpec.quantizations spec.
Proof.
  intros Hf Hs quants. subst quants.
  rewrite (quantizationOptions_effect_eq _ _ Hf Hs). split.
  - apply NoDup_new_Set.
  - intros q. rewrite elem_of_new_Set, list_elem_of_bind.
    setoid_rewrite list_elem_of_filter. split.
    + intros (spec & Hq & (Hfmt & Heq) & Hin). exists spec.
      split_and!; try done. by apply Is_true_true.
    + intros (spec & Hin & Hfmt & Heq & Hq). exists spec.
      split_and!; try done. by apply Is_true_true.
Qed.

(** ** Launch runs *)

(** Splits a launch run by the flags of the render, the presence of the
    catalog entry and the answers of the network, and computes each run. *)
Ltac launch_cases ctx p w :=
  let net := fresh "net" in
  let o1 := fresh "o" in
  let o2 := fresh "o" in
  destruct w as [[? ?] ? ? net ?];
  destruct ctx as [[|] [|]]; destruct p as [? [? |]];
  try (destruct net as [| o1 net]; [| destruct o1; (destruct net as [| o2 net]; [| destruct o2])]);
  unfold effects_of;
  cbv [launchModel chain await propagate run_handler fate
       mbind M_bind mret M_ret throw emit fetch uuidv1 setIsCallingApi
       Response_json window_open console_error
       modelData isCallingApi isUpdatingModel orb tail snd
       api uuid_source uuid_count network trace body_is_json];
  rewrite <- ?app_assoc, ?drop_all, ?drop_app_length.

Lemma launch_both_resolve ctx p st url w r1 r2 :
  responses_received (effects_of (launchModel ctx p st url) w) = [r1; r2] →
  ∃ md, modelData p = Some md
    ∧ isCallingApi ctx = false ∧ isUpdatingModel ctx = false
    ∧ let uuid := uuid_source w (uuid_count w) in
      let first := post (url ++ "/v1/models") (launch_body md st uuid) in
      let second := post (url ++ "/v1/ui/" ++ uuid) (launch_body md st uuid) in
      effects_of (launchModel ctx p st url) w
      = [ SetIsCallingApi true;
          Fetch first;
          Settle (FetchPromise first (Resolves r1));
          ResponseJson r1;
          Fetch second;
          Settle (FetchPromise second (Resolves r2));
          ResponseJson r2;
          WindowOpen (url ++ "/" ++ uuid) "_blank" "noreferrer";
          SetIsCallingApi false ]
      ∧ api (launchModel ctx p st url w).2
        = {| isCallingApi := false; isUpdatingModel := isUpdatingModel (api w) |}
      ∧ uuid_count (launchModel ctx p st url w).2 = S (uuid_count w).
Proof.
  launch_cases ctx p w; intros Hresp; try discriminate Hresp.
  all: try (cbn in Hresp; discriminate Hresp).
  cbn in Hresp. injection Hresp as <- <-. eexists. split_and!; reflexivity.
Qed.

Lemma launch_refused ctx p st url w :
  isCallingApi ctx || isUpdatingModel ctx = true →
  launchModel ctx p st url w = (Ok tt, w).
Proof. intros Hbusy. unfold launchModel. by rewrite Hbusy. Qed.

(** X2. A rejected first request: the rejection goes past every [Then] link
    to the [Catch] link.  The second request is never sent, the error is
    written to the console and the in-flight flag is lowered. *)
Lemma launch_first_rejects ctx p md st url w e rest :
  isCallingApi ctx || isUpdatingModel ctx = false →
  modelData p = Some md →
  network w = RejectsWith e :: rest →
  let uuid := uuid_source w (uuid_count w) in
  let first := post (url ++ "/v1/models") (launch_body md st uuid) in
  effects_of (launchModel ctx p st url) w
  = [ SetIsCallingApi true; Fetch first;
      Settle (FetchPromise first (RejectsWith e));
      ConsoleError "Error:" e; SetIsCallingApi false ]
  ∧ isCallingApi (api (launchModel ctx p st url w).2) = false.
Proof.
  intros Hidle Hmd Hnet uuid first. subst uuid first.
  launch_cases ctx p w;
    try discriminate Hidle; try discriminate Hnet; try discriminate Hmd.
  all: cbn in Hnet, Hmd; injection Hnet as <- <-; injection Hmd as ->; done.
Qed.

(** X3. A rejected second request, after the first was answered: the error
    is written to the console and the in-flight flag is lowered; no window is
    opened, and nothing is sent to take the first request back. *)
Lemma launch_second_rejects ctx p md st url w r1 e rest :
  isCallingApi ctx || isUpdatingModel ctx = false →
  modelData p = Some md →
  network w = Resolves r1 :: RejectsWith e :: rest →
  let uuid := uuid_source w (uuid_count w) in
  let first := post (url ++ "/v1/models") (launch_body md st uuid) in
  let second := post (url ++ "/v1/ui/" ++ uuid) (launch_body md st uuid) in
  effects_of (launchModel ctx p st url) w
  = [ SetIsCallingApi true; Fetch first;
      Settle (FetchPromise first (Resolves r1)); ResponseJson r1;
      Fetch second; Settle (FetchPromise second (RejectsWith e));
      ConsoleError "Error:" e; SetIsCallingApi false ]
  ∧ isCallingApi (api (launchModel ctx p st url w).2) = false.
Proof.
  intros Hidle Hmd Hnet uuid first second. subst uuid first second.
  launch_cases ctx p w;
    try discriminate Hidle; try discriminate Hnet; try discriminate Hmd.
  all: cbn in Hnet, Hmd; injection Hnet as <- <- <-; injection Hmd as ->; done.
Qed.

(** ** The launch button *)

Lemma run_effects_same_selection p st st' :
  modelFormat st' = modelFormat st → modelSize st' = modelSize st →
  run_effects p (Some st) st' = st'.
Proof.
  intros Hf Hs. unfold run_effects, deps_changed. rewrite Hf, Hs.
  by rewrite !bool_decide_eq_true_2.
Qed.

Lemma Box_onClick_selection render st :
  modelFormat (Box_onClick render st) = modelFormat st
  ∧ modelSize (Box_onClick render st) = modelSize st
  ∧ quantization (Box_onClick render st) = quantization st.
Proof. unfold Box_onClick. by destruct (selected render). Qed.

Lemma click_disabled p st w :
  launch_disabled (api w) p st = true →
  dispatch p ClickLaunch st w = (Ok st, w).
Proof.
  intros Hdis. unfold dispatch, handle, mbind, M_bind. rewrite Hdis.
  unfold mret, M_ret. by rewrite run_effects_same_selection.
Qed.

Lemma click_enabled p st w :
  launch_disabled (api w) p st = false →
  (dispatch p ClickLaunch st w).2 = (launchModel (api w) p st (url p) w).2.
Proof.
  intros Hen. unfold dispatch, handle, mbind, M_bind. rewrite Hen.
  by destruct (launchModel (api w) p st (url p) w) as [[[] | e] w'].
Qed.

Lemma click_effects p st w :
  effects_of (dispatch p ClickLaunch st) w
  = if launch_disabled (api w) p st then []
    else effects_of (launchModel (api w) p st (url p)) w.
Proof.
  unfold effects_of. destruct (launch_disabled (api w) p st) eqn:Hdis.
  - rewrite click_disabled by done. apply drop_all.
  - by rewrite click_enabled.
Qed.

(** C1. With an incomplete selection (no format, or no size, or no
    quantization where one is required: a built-in model or the pytorch
    format) the launch button is disabled, and a click on it changes nothing
    and sends no request. *)
Theorem incomplete_selection_sends_nothing (p : Props) (md : ModelData.t)
    (st : State) (w : World) :
  modelData p = Some md →
  modelFormat st = ""
  ∨ modelSize st = SizeString ""
  ∨ (quantization st = ""
     ∧ (ModelData.is_builtin md = true ∨ modelFormat st = "pytorch")) →
  dispatch p ClickLaunch st w = (Ok st, w)
  ∧ requests (effects_of (dispatch p ClickLaunch st) w) = [].
Proof.
  intros Hmd Hincomplete.
  assert (launch_disabled (api w) p st = true) as Hdis.
  { unfold launch_disabled, selection_complete. rewrite Hmd.
    destruct Hincomplete as [-> | [-> | [-> [-> | ->]]]]; cbn;
      rewrite ?andb_false_r, ?orb_true_r; done. }
  split; [by apply click_disabled |].
  by rewrite click_effects, Hdis.
Qed.

(** The guard on the selection is in the markup only: [launchModel] itself,
    run from a render in which nothing is selected, sends its first
    request. *)
Example launchModel_tests_flags_only :
  requests (effects_of
    (launchModel Sample.idle Sample.props initial_state "http://localhost:9997")
    (Sample.world Sample.idle []))
  = [ post "http://localhost:9997/v1/models"
        (launch_body Sample.llama initial_state "uuid-0") ].
Proof. reflexivity. Qed.

(** C5. While one of the two shared flags is set, [launchModel] returns at
    once: the world, and with it the trace and the flags, is as before.  The
    same holds for a click on the button, which is then disabled. *)
Theorem busy_launch_does_nothing (ctx : ApiContext) (p : Props) (st : State)
    (target : string) (w : World) :
  isCallingApi ctx = true ∨ isUpdatingModel ctx = true →
  launchModel ctx p st target w = (Ok tt, w)
  ∧ effects_of (launchModel ctx p st target) w = []
  ∧ (api w = ctx → dispatch p ClickLaunch st w = (Ok st, w)).
Proof.
  intros Hbusy.
  assert (isCallingApi ctx || isUpdatingModel ctx = true) as Hor.
  { destruct Hbusy as [-> | ->]; [done | apply orb_true_r]. }
  split_and!.
  - by apply launch_refused.
  - unfold effects_of. rewrite launch_refused by done. apply drop_all.
  - intros <-. apply click_disabled. unfold launch_disabled. by rewrite Hor.
Qed.

(** C4. A click on the launch button with a complete selection and the
    in-flight flag down, in a run in which both requests get a response:
    one POST to /v1/models, then one POST to /v1/ui/ followed by the id,
    both with the body made of the one id the generator gave and the
    selection; then the page of the id is opened in a new window and the flag
    is lowered. *)
Theorem launch_success_run (p : Props) (st : State) (w : World)
    (r1 r2 : Response) :
  selection_complete p st = true →
  isCallingApi (api w) = false →
  responses_received (effects_of (dispatch p ClickLaunch st) w) = [r1; r2] →
  ∃ md, modelData p = Some md
    ∧ let uuid := uuid_source w (uuid_count w) in
      let first := post (url p ++ "/v1/models") (launch_body md st uuid) in
      let second := post (url p ++ "/v1/ui/" ++ uuid) (launch_body md st uuid) in
      let w' := (dispatch p ClickLaunch st w).2 in
      effects_of (dispatch p ClickLaunch st) w
      = [ SetIsCallingApi true;
          Fetch first;
          Settle (FetchPromise first (Resolves r1));
          ResponseJson r1;
          Fetch second;
          Settle (FetchPromise second (Resolves r2));
          ResponseJson r2;
          WindowOpen (url p ++ "/" ++ uuid) "_blank" "noreferrer";
          SetIsCallingApi false ]
      ∧ requests (effects_of (dispatch p ClickLaunch st) w) = [first; second]
      ∧ isCallingApi (api w') = false
      ∧ uuid_count w' = S (uuid_count w).
Proof.
  intros Hcomplete Hflag Hresp. rewrite click_effects in Hresp |- *.
  destruct (launch_disabled (api w) p st) eqn:Hdis; [discriminate Hresp |].
  destruct (launch_both_resolve _ _ _ _ _ _ _ Hresp)
    as (md & Hmd & _ & _ & Heff & Hapi & Hcount).
  exists md. split; [done |]. cbn zeta. rewrite click_enabled by done.
  rewrite Heff, Hapi, Hcount. done.
Qed.

(** C9. Whatever the two responses are (any status, any body), a run in which
    both requests get one goes down the success path: the page of the id is
    opened in a new window, nothing is written to the console, and the run
    ends by lowering the in-flight flag. *)
Theorem launch_ignores_status (ctx : ApiContext) (p : Props) (st : State)
    (target : string) (w : World) (r1 r2 : Response) :
  responses_received (effects_of (launchModel ctx p st target) w) = [r1; r2] →
  let t := effects_of (launchModel ctx p st target) w in
  WindowOpen (target ++ "/" ++ uuid_source w (uuid_count w)) "_blank" "noreferrer" ∈ t
  ∧ errors_logged t = []
  ∧ last t = Some (SetIsCallingApi false)
  ∧ isCallingApi (api (launchModel ctx p st target w).2) = false.
Proof.
  intros Hresp t. subst t.
  destruct (launch_both_resolve _ _ _ _ _ _ _ Hresp)
    as (md & _ & _ & _ & Heff & Hapi & _).
  rewrite Heff, Hapi. split_and!; try done.
  rewrite !elem_of_cons. tauto.
Qed.

(** Finds every way in which a computed trace is [before ++ Fetch req :: after]. *)
Ltac split_trace H before :=
  destruct before as [| ? before]; cbn in H;
  [ try discriminate H
  | first [ discriminate H
          | injection H as ? H; subst; split_trace H before ] ].

(** C3. In every launch run, when a request goes out every request sent
    before it has already been answered with a response, so no two are in
    flight together; and the request to /v1/ui/ is sent with the request to
    /v1/models, and its response, behind it. *)
Theorem launch_calls_are_sequential (ctx : ApiContext) (p : Props) (st : State)
    (target : string) (w : World) (before after : list Effect) (req : Request) :
  effects_of (launchModel ctx p st target) w = (before ++ Fetch req :: after)%list →
  Forall (λ earlier, ∃ r, Settle (FetchPromise earlier (Resolves r)) ∈ before)
         (requests before)
  ∧ length (settled_fetches before) = length (requests before)
  ∧ (requests before = [] ∧ req_url req = target ++ "/v1/models"
     ∨ ∃ first r,
         requests before = [first]
         ∧ req_url first = target ++ "/v1/models"
         ∧ Settle (FetchPromise first (Resolves r)) ∈ before
         ∧ req_url req = target ++ "/v1/ui/" ++ uuid_source w (uuid_count w)).
Proof.
  launch_cases ctx p w; intros Hsplit; split_trace Hsplit before.
  all: injection Hsplit as <- <-; cbn.
  all: split_and!;
    [ repeat constructor; eexists; rewrite !elem_of_cons; eauto 10
    | reflexivity
    | first [ by left
            | right; do 2 eexists; split_and!;
              [ reflexivity | reflexivity | rewrite !elem_of_cons; eauto 10
              | reflexivity ] ] ].
Qed.

(** C2. A first response whose body is not JSON, answered by a run that was
    started from a complete selection: the promise of [response.json()] is
    dropped by the handler, so its rejection never reaches the [Catch] link.
    Nothing is written to the console, the second request is sent, and the
    page is opened. *)
Example body_not_json_is_not_noticed :
  let w := Sample.world Sample.idle [Resolves Sample.not_json; Resolves Sample.ok] in
  let t := effects_of (dispatch Sample.props ClickLaunch Sample.configured) w in
  let payload := launch_body Sample.llama Sample.configured "uuid-0" in
  errors_logged t = []
  ∧ requests t = [ post "http://localhost:9997/v1/models" payload;
                   post "http://localhost:9997/v1/ui/uuid-0" payload ]
  ∧ responses_received t = [Sample.not_json; Sample.ok]
  ∧ last t = Some (SetIsCallingApi false)
  ∧ WindowOpen "http://localhost:9997/uuid-0" "_blank" "noreferrer" ∈ t.
Proof.
  cbv zeta. split_and!; [reflexivity .. |].
  apply list_elem_of_In. vm_compute. repeat (first [by left | right]).
Qed.

(** ** Events that leave the selection alone *)

Lemma run_effects_frame p prev st :
  hover (run_effects p prev st) = hover st
  ∧ selected (run_effects p prev st) = selected st
  ∧ modelFormat (run_effects p prev st) = modelFormat st
  ∧ modelSize (run_effects p prev st) = modelSize st
  ∧ quantization (run_effects p prev st) = quantization st.
Proof.
  unfold run_effects, formatOptions_effect, sizeOptions_effect,
    quantizationOptions_effect.
  destruct (modelData p), (deps_changed (λ _, ()) prev st),
    (deps_changed modelFormat prev st),
    (deps_changed (λ s, (modelFormat s, modelSize s)) prev st),
    st as [h s f sz q fo so qo];
    unfold setFormatOptions, setSizeOptions, setQuantizationOptions;
    repeat (cbn; match goal with
                 | |- context [JS.string_truthy ?x] => destruct (JS.string_truthy x)
                 | |- context [truthy ?x] => destruct (truthy x)
                 end);
    done.
Qed.

(** C8. A click on the undo button leaves the world alone and changes no
    state cell but [selected]: format, size and quantization are what they
    were, and a card that was being configured is back to browsing. *)
Theorem undo_keeps_selection (p : Props) (st : State) (w : World) :
  ∃ st', dispatch p ClickUndo st w = (Ok st', w)
    ∧ (modelFormat st', modelSize st', quantization st')
      = (modelFormat st, modelSize st, quantization st)
    ∧ st' = setSelected (selected st') st
    ∧ (selected st = true → selected st' = false).
Proof.
  exists (setSelected (negb (selected st)) st). split_and!.
  - unfold dispatch, handle, mbind, M_bind, mret, M_ret.
    assert (Box_onClick st (setSelected false st)
            = setSelected (negb (selected st)) st) as ->.
    { unfold Box_onClick. by destruct (selected st). }
    by rewrite run_effects_same_selection.
  - reflexivity.
  - reflexivity.
  - intros ->. reflexivity.
Qed.

(** C10. Picking a format sets the format and nothing else of the selection:
    size and quantization stay what they were.  On the sample card with
    pytorch, 7 and int4 picked, picking ggmlv3 leaves a size and a
    quantization that are in neither of the lists derived for ggmlv3. *)
Theorem format_change_keeps_downstream_selection :
  (∀ (p : Props) (st : State) (f : string) (w : World),
      ∃ st', dispatch p (ChangeFormat f) st w = (Ok st', w)
        ∧ modelFormat st' = f
        ∧ modelSize st' = modelSize st
        ∧ quantization st' = quantization st)
  ∧ (∃ st',
      (dispatch Sample.props (ChangeFormat "ggmlv3") Sample.configured
         (Sample.world Sample.idle [])
       = (Ok st', Sample.world Sample.idle []))
      ∧ modelFormat st' = "ggmlv3"
      ∧ modelSize st' = SizeNumber (JS.of_Z 7)
      ∧ sizeOptions st' = [JS.of_Z 13]
      ∧ (parseFloat (modelSize st') ∉ sizeOptions st')
      ∧ quantization st' = "int4"
      ∧ quantizationOptions st' = []
      ∧ (quantization st' ∉ quantizationOptions st')).
Proof.
  split.
  - intros p st f w. eexists. split; [reflexivity |].
    destruct (run_effects_frame p (Some st) (setModelFormat f st))
      as (_ & _ & -> & -> & ->). done.
  - eexists. split; [reflexivity |].
    split_and!; try reflexivity.
    + apply (bool_decide_unpack _). vm_compute. exact I.
    + apply not_elem_of_nil.
Qed.

(** ** The option lists follow the selection

    Running an effect again on a state whose list is up to date changes
    nothing; this holds of all three effects in every state the card can
    reach. *)

Lemma handle_keeps_options p e st w st' w' :
  handle p e st w = (Ok st', w') →
  formatOptions st' = formatOptions st
  ∧ sizeOptions st' = sizeOptions st
  ∧ quantizationOptions st' = quantizationOptions st.
Proof.
  destruct e; cbn; unfold Box_onClick;
    try (intros [= <- <-]; by destruct (selected st)).
  destruct (launch_disabled (api w) p st); [by intros [= <- <-] |].
  unfold mbind, M_bind.
  destruct (launchModel (api w) p st (url p) w) as [[[] | err] w1];
    [| discriminate].
  intros [= <- <-]. by destruct (selected st).
Qed.

Lemma run_effects_up_to_date p st0 st :
  formatOptions st = formatOptions st0 →
  sizeOptions st = sizeOptions st0 →
  quantizationOptions st = quantizationOptions st0 →
  formatOptions_effect (modelData p) st0 = st0
  ∧ sizeOptions_effect (modelData p) st0 = st0
  ∧ quantizationOptions_effect (modelData p) st0 = st0 →
  let st' := run_effects p (Some st0) st in
  formatOptions_effect (modelData p) st' = st'
  ∧ sizeOptions_effect (modelData p) st' = st'
  ∧ quantizationOptions_effect (modelData p) st' = st'.
Proof.
  destruct st0 as [h0 s0 f0 sz0 q0 fo0 so0 qo0], st as [h s f sz q fo so qo].
  cbn [formatOptions sizeOptions quantizationOptions]. intros -> -> ->.
  unfold run_effects, deps_changed.
  cbn [modelFormat modelSize].
  rewrite (bool_decide_eq_true_2 (() = ())) by done. cbn [negb].
  destruct (decide (f0 = f)) as [-> | Hf];
    [rewrite (bool_decide_eq_true_2 (f = f)) by done
    |rewrite (bool_decide_eq_false_2 (f0 = f)) by done];
    (destruct (decide (sz0 = sz)) as [-> | Hsz];
     [| rewrite (bool_decide_eq_false_2 (_ = (f, sz))) by congruence]);
    rewrite ?(bool_decide_eq_true_2 ((f, sz) = (f, sz))) by done;
    rewrite ?(bool_decide_eq_false_2 (_ = (f, sz))) by congruence;
    cbn [negb].
  all: unfold formatOptions_effect, sizeOptions_effect,
    quantizationOptions_effect, setFormatOptions, setSizeOptions,
    setQuantizationOptions;
    destruct (modelData p) as [md |]; cbn;
    destruct (JS.string_truthy f) eqn:Hf'; cbn; rewrite ?Hf'; cbn;
    destruct (truthy sz) eqn:Hsz'; cbn; rewrite ?Hf', ?Hsz'; cbn;
    intros (Hfo & Hso & Hqo); split_and!; congruence.
Qed.

Lemma mount_up_to_date p :
  formatOptions_effect (modelData p) (mount p) = mount p
  ∧ sizeOptions_effect (modelData p) (mount p) = mount p
  ∧ quantizationOptions_effect (modelData p) (mount p) = mount p.
Proof.
  unfold mount, run_effects, deps_changed, formatOptions_effect.
  by destruct (modelData p).
Qed.

Lemma dispatch_Ok p e st w st' w' :
  dispatch p e st w = (Ok st', w') →
  ∃ st1, handle p e st w = (Ok st1, w') ∧ st' = run_effects p (Some st) st1.
Proof.
  unfold dispatch, mbind, M_bind, mret, M_ret.
  destruct (handle p e st w) as [[st1 | err] w1]; [| discriminate].
  intros [= <- <-]. by exists st1.
Qed.

Lemma dispatch_all_cons_Ok p e es st w st' w' :
  dispatch_all p (e :: es) st w = (Ok st', w') →
  ∃ st1 w1, dispatch p e st w = (Ok st1, w1)
            ∧ dispatch_all p es st1 w1 = (Ok st', w').
Proof.
  cbn [dispatch_all]. unfold mbind at 1, M_bind at 1.
  destruct (dispatch p e st w) as [[st1 | err] w1]; [| discriminate].
  intros Hrest. by exists st1, w1.
Qed.

(** Every state the card reaches from its first render has its three option
    lists up to date with its selection. *)
Theorem options_up_to_date p es w st w' :
  dispatch_all p es (mount p) w = (Ok st, w') →
  formatOptions_effect (modelData p) st = st
  ∧ sizeOptions_effect (modelData p) st = st
  ∧ quantizationOptions_effect (modelData p) st = st.
Proof.
  generalize (mount_up_to_date p). generalize (mount p) as st0.
  revert w. induction es as [| e es IH]; intros w st0 Hinv.
  - by intros [= <- <-].
  - intros (st1 & w1 & Hstep & Hrest)%dispatch_all_cons_Ok.
    apply dispatch_Ok in Hstep as (sth & Hhandle & ->).
    destruct (handle_keeps_options _ _ _ _ _ _ Hhandle) as (Hfo & Hso & Hqo).
    eapply IH; [| exact Hrest]. by apply run_effects_up_to_date.
Qed.

(** The ids of two launches are the ids the generator gives one after the
    other; they differ when the generator never repeats itself. *)
Lemma uuidv1_twice w :
  (∀ m n, uuid_source w m = uuid_source w n → m = n) →
  ∃ a b w1 w2,
    uuidv1 w = (Ok a, w1) ∧ uuidv1 w1 = (Ok b, w2) ∧ a ≠ b
    ∧ trace w2 = trace w.
Proof.
  intros Hinj. do 4 eexists. split_and!; [reflexivity | reflexivity | | done].
  cbn. intros Heq%Hinj. lia.
Qed.

(** ** The theorems at work on the sample card *)

(** The sample state is the one the card is in after the three picks. *)
Example configured_is_reached :
  dispatch_all Sample.props
    [ ClickCard; ChangeFormat "pytorch"; ChangeSize (SizeNumber (JS.of_Z 7));
      ChangeQuantization "int4" ]
    (mount Sample.props) (Sample.world Sample.idle [])
  = (Ok Sample.configured, Sample.world Sample.idle []).
Proof. reflexivity. Qed.

(** A catalog of two pytorch variants, of sizes 7 and 13: one format is
    offered, and each size brings its own quantizations. *)
Example two_variants :
  let catalog :=
    {| ModelData.model_name := "m"; ModelData.model_description := "two sizes";
       ModelData.model_ability := ["generate"];
       ModelData.context_length := JS.of_Z 2048;
       ModelData.is_builtin := true;
       ModelData.model_specs :=
         [ Sample.variant "pytorch" 7 ["int4"; "int8"];
           Sample.variant "pytorch" 13 ["int4"] ] |} in
  let p := {| url := "http://localhost:9997"; modelData := Some catalog |} in
  let offered es :=
    match dispatch_all p es (mount p) (Sample.world Sample.idle []) with
    | (Ok st, _) => Some (quantizationOptions st)
    | (Thrown _, _) => None
    end in
  formatOptions (mount p) = ["pytorch"]
  ∧ offered [ChangeFormat "pytorch"; ChangeSize (SizeNumber (JS.of_Z 7))]
    = Some ["int4"; "int8"]
  ∧ offered [ChangeFormat "pytorch"; ChangeSize (SizeNumber (JS.of_Z 13))]
    = Some ["int4"].
Proof. split_and!; vm_compute; reflexivity. Qed.

(** A size picked as text is compared as the number it parses to. *)
Example size_as_text_or_number :
  quantizationOptions
    (quantizationOptions_effect (Some Sample.llama)
       (setModelSize (SizeString "7") Sample.configured))
  = ["int4"; "int8"]
  ∧ quantizationOptions
      (quantizationOptions_effect (Some Sample.llama)
         (setModelSize (SizeNumber (JS.of_Z 7)) Sample.configured))
    = ["int4"; "int8"]
  ∧ quantizationOptions
      (quantizationOptions_effect (Some Sample.llama)
         (setModelSize (SizeString "13.0") Sample.configured))
    = ["int4"].
Proof. split_and!; vm_compute; reflexivity. Qed.

Lemma incomplete_selection_sends_nothing_witness :
  let st := setQuantization "" Sample.configured in
  let w := Sample.world Sample.idle [Resolves Sample.ok; Resolves Sample.ok] in
  modelData Sample.props = Some Sample.llama
  ∧ (quantization st = ""
     ∧ (ModelData.is_builtin Sample.llama = true ∨ modelFormat st = "pytorch"))
  ∧ dispatch Sample.props ClickLaunch st w = (Ok st, w)
  ∧ requests (effects_of (dispatch Sample.props ClickLaunch st) w) = [].
Proof.
  intros st w.
  assert (quantization st = ""
          ∧ (ModelData.is_builtin Sample.llama = true ∨ modelFormat st = "pytorch"))
    as Hq by (split; [reflexivity | left; reflexivity]).
  split; [reflexivity |]. split; [exact Hq |].
  apply (incomplete_selection_sends_nothing Sample.props Sample.llama st w);
    [reflexivity | right; right; exact Hq].
Defined.

Lemma busy_launch_does_nothing_witness :
  let ctx := {| isCallingApi := false; isUpdatingModel := true |} in
  let w := Sample.world ctx [Resolves Sample.ok; Resolves Sample.ok] in
  isUpdatingModel ctx = true
  ∧ launchModel ctx Sample.props Sample.configured "http://localhost:9997" w
    = (Ok tt, w)
  ∧ effects_of
      (launchModel ctx Sample.props Sample.configured "http://localhost:9997") w
    = []
  ∧ (api w = ctx →
     dispatch Sample.props ClickLaunch Sample.configured w
     = (Ok Sample.configured, w)).
Proof.
  intros ctx w. split; [reflexivity |].
  apply (busy_launch_does_nothing ctx Sample.props Sample.configured
           "http://localhost:9997" w).
  right. reflexivity.
Defined.

Lemma launch_success_run_witness :
  let w := Sample.world Sample.idle [Resolves Sample.ok; Resolves Sample.ok] in
  let t := effects_of (dispatch Sample.props ClickLaunch Sample.configured) w in
  selection_complete Sample.props Sample.configured = true
  ∧ isCallingApi (api w) = false
  ∧ responses_received t = [Sample.ok; Sample.ok]
  ∧ ∃ md, modelData Sample.props = Some md
      ∧ requests t
        = [ post "http://localhost:9997/v1/models"
              (launch_body md Sample.configured "uuid-0");
            post "http://localhost:9997/v1/ui/uuid-0"
              (launch_body md Sample.configured "uuid-0") ].
Proof.
  intros w t. split_and!; [reflexivity .. |].
  destruct (launch_success_run Sample.props Sample.configured w
              Sample.ok Sample.ok eq_refl eq_refl eq_refl)
    as (md & Hmd & _ & Hreq & _).
  exists md. split; [exact Hmd | exact Hreq].
Defined.

Lemma launch_ignores_status_witness :
  let w := Sample.world Sample.idle
             [Resolves Sample.server_error; Resolves Sample.not_json] in
  let t := effects_of
             (launchModel Sample.idle Sample.props Sample.configured
                "http://localhost:9997") w in
  responses_received t = [Sample.server_error; Sample.not_json]
  ∧ WindowOpen "http://localhost:9997/uuid-0" "_blank" "noreferrer" ∈ t
  ∧ errors_logged t = []
  ∧ last t = Some (SetIsCallingApi false)
  ∧ isCallingApi
      (api (launchModel Sample.idle Sample.props Sample.configured
              "http://localhost:9997" w).2) = false.
Proof.
  intros w t. split; [reflexivity |].
  apply (launch_ignores_status Sample.idle Sample.props Sample.configured
           "http://localhost:9997" w Sample.server_error Sample.not_json).
  reflexivity.
Defined.

Lemma launch_calls_are_sequential_witness :
  let w := Sample.world Sample.idle
             [Resolves Sample.server_error; Resolves Sample.ok] in
  let t := effects_of
             (launchModel Sample.idle Sample.props Sample.configured
                "http://localhost:9997") w in
  let payload := launch_body Sample.llama Sample.configured "uuid-0" in
  let second := post "http://localhost:9997/v1/ui/uuid-0" payload in
  t = (take 4 t ++ Fetch second :: drop 5 t)%list
  ∧ length (settled_fetches (take 4 t)) = length (requests (take 4 t))
  ∧ Forall (λ earlier,
       ∃ r, Settle (FetchPromise earlier (Resolves r)) ∈ take 4 t)
       (requests (take 4 t)).
Proof.
  intros w t payload second.
  assert (t = (take 4 t ++ Fetch second :: drop 5 t)%list) as Hsplit
    by reflexivity.
  split; [exact Hsplit |].
  destruct (launch_calls_are_sequential Sample.idle Sample.props
              Sample.configured "http://localhost:9997" w
              (take 4 t) (drop 5 t) second Hsplit) as (Hall & Hlen & _).
  split; [exact Hlen | exact Hall].
Defined.

Lemma quantization_options_witness :
  let st := setModelSize (SizeString "7") Sample.configured in
  let quants :=
    quantizationOptions (quantizationOptions_effect (Some Sample.llama) st) in
  modelFormat st ≠ "" ∧ truthy (modelSize st) = true
  ∧ NoDup quants
  ∧ ∀ q, q ∈ quants ↔
         ∃ spec, spec ∈ ModelData.model_specs Sample.llama
                 ∧ VariantSpec.model_format spec = modelFormat st
                 ∧ JS.strict_eq (VariantSpec.model_size_in_billions spec)
                                (parseFloat (modelSize st)) = true
                 ∧ q ∈ VariantSpec.quantizations spec.
Proof.
  intros st quants.
  assert (modelFormat st ≠ "") as Hf by discriminate.
  split; [exact Hf |]. split; [reflexivity |].
  exact (quantization_options Sample.llama st Hf eq_refl).
Defined.

Lemma format_and_size_options_witness :
  let st := Sample.configured in
  let sizes := sizeOptions (sizeOptions_effect (Some Sample.llama) st) in
  modelFormat st ≠ ""
  ∧ NoDup sizes
  ∧ ∀ s, s ∈ sizes ↔
         ∃ spec, spec ∈ ModelData.model_specs Sample.llama
                 ∧ VariantSpec.model_format spec = modelFormat st
                 ∧ VariantSpec.model_size_in_billions spec = s.
Proof.
  intros st sizes.
  assert (modelFormat st ≠ "") as Hf by discriminate.
  split; [exact Hf |].
  exact (proj2 (format_and_size_options Sample.llama st) Hf).
Defined.

Lemma undo_keeps_selection_witness :
  selected Sample.configured = true
  ∧ ∃ st', dispatch Sample.props ClickUndo Sample.configured
             (Sample.world Sample.idle [])
           = (Ok st', Sample.world Sample.idle [])
      ∧ (modelFormat st', modelSize st', quantization st')
        = ("pytorch", SizeNumber (JS.of_Z 7), "int4")
      ∧ selected st' = false.
Proof.
  split; [reflexivity |].
  destruct (undo_keeps_selection Sample.props Sample.configured
              (Sample.world Sample.idle []))
    as (st' & Hrun & Hsel & _ & Hback).
  exists st'. split_and!; [exact Hrun | exact Hsel | exact (Hback eq_refl)].
Defined.

(** * Further properties of the launch sequencer *)

Lemma launch_enabled_inv ctx p st :
  launch_disabled ctx p st = false →
  isCallingApi ctx || isUpdatingModel ctx = false
  ∧ JS.string_truthy (modelFormat st) = true
  ∧ truthy (modelSize st) = true
  ∧ ∃ md, modelData p = Some md.
Proof.
  unfold launch_disabled, selection_complete.
  destruct (isCallingApi ctx || isUpdatingModel ctx); [done |].
  destruct (JS.string_truthy (modelFormat st)); [| done].
  destruct (truthy (modelSize st)); [| done].
  destruct (modelData p) as [md |]; [| done]. eauto.
Qed.

(** A request that is never answered: the run stops at it. *)
Lemma launch_first_pending ctx p md st url w :
  isCallingApi ctx || isUpdatingModel ctx = false →
  modelData p = Some md →
  (network w = [] ∨ ∃ rest, network w = NeverSettles :: rest) →
  effects_of (launchModel ctx p st url) w
  = [ SetIsCallingApi true;
      Fetch (post (url ++ "/v1/models")
               (launch_body md st (uuid_source w (uuid_count w)))) ]
  ∧ isCallingApi (api (launchModel ctx p st url w).2) = true.
Proof.
  intros Hidle Hmd Hnet.
  launch_cases ctx p w; try discriminate Hidle; try discriminate Hmd;
    cbn in Hnet, Hmd; destruct Hnet as [Hnet | [rest Hnet]];
    try discriminate Hnet; injection Hmd as ->; done.
Qed.

(** X4. When the first request of a launch is never answered, the click has
    raised the in-flight flag and sent that one request, and nothing lowers
    the flag again: from then on a click on the launch button of any card
    that shares the context does nothing. *)
Theorem pending_launch_blocks_every_card (p : Props) (st : State) (w : World) :
  launch_disabled (api w) p st = false →
  (network w = [] ∨ ∃ rest, network w = NeverSettles :: rest) →
  let w1 := (dispatch p ClickLaunch st w).2 in
  isCallingApi (api w1) = true
  ∧ length (requests (effects_of (dispatch p ClickLaunch st) w)) = 1
  ∧ last (effects_of (dispatch p ClickLaunch st) w) ≠ Some (SetIsCallingApi false)
  ∧ ∀ p2 st2, dispatch p2 ClickLaunch st2 w1 = (Ok st2, w1).
Proof.
  intros Hen Hnet w1. subst w1.
  destruct (launch_enabled_inv _ _ _ Hen) as (Hidle & _ & _ & md & Hmd).
  destruct (launch_first_pending _ _ _ st (url p) _ Hidle Hmd Hnet) as [Heff Hflag].
  rewrite click_effects, Hen, click_enabled, Heff by done.
  split_and!; try done.
  intros p2 st2. apply click_disabled. unfold launch_disabled. by rewrite Hflag.
Qed.

(** X5. Whatever the network answers, a launch run sends nothing, or the POST
    to /v1/models, or that POST followed by the POST to /v1/ui/ and the id:
    never a third request, never the same request twice, and always with the
    JSON content type and the body made from the render and the one id. *)
Theorem launch_sends_at_most_two (ctx : ApiContext) (p : Props) (st : State)
    (target : string) (w : World) :
  let rs := requests (effects_of (launchModel ctx p st target) w) in
  rs = []
  ∨ ∃ md, modelData p = Some md
      ∧ let uuid := uuid_source w (uuid_count w) in
        let first := post (target ++ "/v1/models") (launch_body md st uuid) in
        let second := post (target ++ "/v1/ui/" ++ uuid) (launch_body md st uuid) in
        rs = [first] ∨ rs = [first; second].
Proof.
  launch_cases ctx p w; cbn; first [by left | right; eexists; split; [done |]; cbn; auto].
Qed.

(** Goes through a membership in a computed trace, keeping the elements that
    can be equal to the one looked for. *)
Ltac trace_member H :=
  cbn in H; rewrite ?elem_of_cons, ?elem_of_nil in H;
  repeat (destruct H as [H | H]; [try discriminate H |]);
  try (destruct H; fail); try discriminate H.

(** X6. A window is opened only in a run in which both requests were answered
    with a response, and then it is the page of this launch's id, opened as a
    new tab without referrer, and nothing was written to the console. *)
Theorem window_only_after_both_responses (ctx : ApiContext) (p : Props)
    (st : State) (target : string) (w : World) (a b c : string) :
  WindowOpen a b c ∈ effects_of (launchModel ctx p st target) w →
  (∃ r1 r2,
      responses_received (effects_of (launchModel ctx p st target) w) = [r1; r2])
  ∧ errors_logged (effects_of (launchModel ctx p st target) w) = []
  ∧ a = target ++ "/" ++ uuid_source w (uuid_count w)
  ∧ b = "_blank" ∧ c = "noreferrer".
Proof.
  launch_cases ctx p w; intros Hin; trace_member Hin.
  injection Hin as -> -> ->. cbn. split_and!; try done. by do 2 eexists.
Qed.

(** X7. The only errors a launch run writes to the console are the rejections
    of its own requests: at most one per run, under the label "Error:", and a
    run that wrote one opened no window. *)
Theorem logged_error_is_a_rejection (ctx : ApiContext) (p : Props) (st : State)
    (target : string) (w : World) (label : string) (e : JSError) :
  ConsoleError label e ∈ effects_of (launchModel ctx p st target) w →
  label = "Error:"
  ∧ (∃ req, Settle (FetchPromise req (RejectsWith e))
            ∈ effects_of (launchModel ctx p st target) w)
  ∧ errors_logged (effects_of (launchModel ctx p st target) w) = [e]
  ∧ ∀ a b c, WindowOpen a b c ∉ effects_of (launchModel ctx p st target) w.
Proof.
  launch_cases ctx p w; intros Hin; trace_member Hin.
  all: injection Hin as -> ->; cbn; split_and!; try done;
    [ eexists; rewrite !elem_of_cons; eauto 10
    | intros a b c Hw; trace_member Hw ].
Qed.

(** X8. In a run that the guard lets through, the in-flight flag ends lowered
    exactly when every request that was sent has been settled (answered or
    rejected), and then lowering it is the last thing the run does; a request
    that is never settled leaves the flag raised. *)
Theorem flag_lowered_iff_settled (ctx : ApiContext) (p : Props) (md : ModelData.t)
    (st : State) (target : string) (w : World) :
  isCallingApi ctx || isUpdatingModel ctx = false →
  modelData p = Some md →
  let t := effects_of (launchModel ctx p st target) w in
  let w' := (launchModel ctx p st target w).2 in
  (isCallingApi (api w') = false
   ↔ length (settled_fetches t) = length (requests t))
  ∧ (isCallingApi (api w') = false → last t = Some (SetIsCallingApi false))
  ∧ (isCallingApi (api w') = true → ∃ req, last t = Some (Fetch req)).
Proof.
  intros Hidle Hmd.
  launch_cases ctx p w; try discriminate Hidle; try discriminate Hmd; cbn;
    split_and!; try split; intros H; try done; try discriminate H; eauto.
Qed.

(** X9. [launchModel] reads [modelData.model_name] without a test.  Run from
    a render without catalog entry, and let through by the guard, it raises
    the in-flight flag, then throws a TypeError: no request is sent and the
    flag stays raised. *)
Theorem launchModel_without_catalog (ctx : ApiContext) (p : Props) (st : State)
    (target : string) (w : World) :
  isCallingApi ctx || isUpdatingModel ctx = false →
  modelData p = None →
  ∃ message w',
    launchModel ctx p st target w = (Thrown (TypeError message), w')
    ∧ effects_of (launchModel ctx p st target) w = [SetIsCallingApi true]
    ∧ isCallingApi (api w') = true.
Proof.
  intros Hidle Hmd.
  launch_cases ctx p w; try discriminate Hidle; try discriminate Hmd.
  all: do 2 eexists; split_and!; reflexivity.
Qed.




(** The state a handler asks for. *)
Lemma handle_state p e st w st1 w1 :
  handle p e st w = (Ok st1, w1) →
  match e with
  | MouseEnter => st1 = setHover true st
  | MouseLeave => st1 = setHover false st
  | ClickCard => st1 = Box_onClick st st
  | ChangeFormat v => st1 = setModelFormat v st
  | ChangeSize v => st1 = setModelSize v st
  | ChangeQuantization v => st1 = setQuantization v st
  | ClickLaunch => st1 = st ∨ st1 = Box_onClick st st
  | ClickUndo => st1 = Box_onClick st (setSelected false st)
  end.
Proof.
  destruct e; cbn; try by intros [= <- <-].
  destruct (launch_disabled (api w) p st); [intros [= <- <-]; by left |].
  unfold mbind, M_bind.
  destruct (launchModel (api w) p st (url p) w) as [[[] | err] w'];
    [| discriminate].
  intros [= <- <-]. by right.
Qed.

(** X11. Once a card is being configured, only the undo button takes it back
    to browsing: every other event leaves [selected] up, and a click on the
    card raises it. *)
Theorem only_undo_leaves_configuring (p : Props) (e : Event) (st st' : State)
    (w w' : World) :
  dispatch p e st w = (Ok st', w') →
  (e ≠ ClickUndo → selected st = true → selected st' = true)
  ∧ (e = ClickCard → selected st' = true).
Proof.
  intros (st1 & Hhandle & ->)%dispatch_Ok.
  destruct (run_effects_frame p (Some st) st1) as (_ & -> & _).
  apply handle_state in Hhandle. split.
  - intros Hne Hsel. unfold Box_onClick in Hhandle. rewrite Hsel in Hhandle.
    destruct e; try done; cbn in Hhandle; try (by subst).
    by destruct Hhandle as [-> | ->].
  - intros ->. subst st1. unfold Box_onClick. by destruct (selected st) eqn:Hs.
Qed.

(** X12. Each cell of the selection is written by its own select only, and
    [hover] by the two mouse events only: an event after which the format (the
    size, the quantization) differs is the change of that select to the new
    value. *)
Theorem selection_changes_by_its_select_only (p : Props) (e : Event)
    (st st' : State) (w w' : World) :
  dispatch p e st w = (Ok st', w') →
  (modelFormat st' ≠ modelFormat st → e = ChangeFormat (modelFormat st'))
  ∧ (modelSize st' ≠ modelSize st → e = ChangeSize (modelSize st'))
  ∧ (quantization st' ≠ quantization st → e = ChangeQuantization (quantization st'))
  ∧ (hover st' ≠ hover st → e = MouseEnter ∨ e = MouseLeave).
Proof.
  intros (st1 & Hhandle & ->)%dispatch_Ok.
  destruct (run_effects_frame p (Some st) st1) as (-> & _ & -> & -> & ->).
  apply handle_state in Hhandle. unfold Box_onClick in Hhandle.
  destruct e; try destruct Hhandle as [Hhandle | Hhandle];
    subst st1; destruct (selected st); cbn; split_and!; intros Hne;
    try done; auto.
Qed.

(** X13. The launch guard asks for a quantization exactly when the
    quantization select is on the card: the selection is complete when a
    format and a size are picked and, if the select is shown, a quantization
    too. *)
Theorem quantization_required_iff_shown (p : Props) (md : ModelData.t) (st : State) :
  modelData p = Some md →
  selection_complete p st = true
  ↔ modelFormat st ≠ ""
    ∧ truthy (modelSize st) = true
    ∧ (quantization_select_shown md st = true → quantization st ≠ "").
Proof.
  intros Hmd. unfold selection_complete, quantization_select_shown.
  rewrite Hmd, <- !string_truthy_spec.
  destruct (JS.string_truthy (modelFormat st)), (truthy (modelSize st)),
    (JS.string_truthy (quantization st)), (ModelData.is_builtin md),
    (bool_decide (modelFormat st = "pytorch")); cbn; split;
    try done; try (intros (? & ? & ?); done); try (intros (_ & _ & H); by apply H).
Qed.

(** X14. The launch button shows what it does: the black rocket exactly when
    it is enabled, the spinner exactly when one of the two shared flags is
    up, and the grey rocket when only the selection is incomplete. *)
Theorem launch_icon_tells_state (ctx : ApiContext) (p : Props) (st : State) :
  (launch_icon ctx p st = BlackRocket ↔ launch_disabled ctx p st = false)
  ∧ (launch_icon ctx p st = Spinner
     ↔ isCallingApi ctx = true ∨ isUpdatingModel ctx = true)
  ∧ (launch_icon ctx p st = GreyRocket
     ↔ isCallingApi ctx = false ∧ isUpdatingModel ctx = false
       ∧ selection_complete p st = false).
Proof.
  unfold launch_icon, launch_disabled.
  destruct (isCallingApi ctx), (isUpdatingModel ctx), (selection_complete p st);
    cbn; split_and!; split; try done; try tauto;
    try (intros [? | ?]; done); try (intros (? & ? & ?); done).
Qed.

(** X1. In every state the card reaches from its first render, the format
    options are the formats of the catalog; the size select, when enabled,
    offers the sizes of the current format; and the quantization select, when
    enabled, offers the quantizations of the current format and size.  No
    enabled select ever shows a list derived from an earlier selection. *)
Theorem enabled_selects_offer_current_options (p : Props) (md : ModelData.t)
    (es : list Event) (w w' : World) (st : State) :
  modelData p = Some md →
  dispatch_all p es (mount p) w = (Ok st, w') →
  formatOptions st
  = JS.new_Set (map VariantSpec.model_format (ModelData.model_specs md))
  ∧ (size_select_disabled st = false →
     sizeOptions st
     = JS.new_Set
         (map VariantSpec.model_size_in_billions
            (filter (λ spec, VariantSpec.model_format spec = modelFormat st)
               (ModelData.model_specs md))))
  ∧ (quantization_select_disabled st = false →
     quantizationOptions st
     = JS.new_Set
         (filter
            (λ spec, VariantSpec.model_format spec = modelFormat st
                     ∧ JS.strict_eq (VariantSpec.model_size_in_billions spec)
                                    (parseFloat (modelSize st)))
            (ModelData.model_specs md)
          ≫= VariantSpec.quantizations)).
Proof.
  intros Hmd Hrun.
  destruct (options_up_to_date _ _ _ _ _ Hrun) as (Hfo & Hso & Hqo).
  rewrite Hmd in Hfo, Hso, Hqo.
  unfold size_select_disabled, quantization_select_disabled. split_and!.
  - rewrite <- Hfo at 1. apply formatOptions_effect_eq.
  - intros Hf%negb_false_iff%string_truthy_spec.
    rewrite <- Hso at 1. by apply sizeOptions_effect_eq.
  - intros [Hf%negb_false_iff%string_truthy_spec Hs%negb_false_iff]%orb_false_iff.
    rewrite <- Hqo at 1. by apply quantizationOptions_effect_eq.
Qed.

(** An event that picks no format leaves a card without format as it is
    towards the world, and without format. *)
Lemma no_format_no_launch p e st w st' w' :
  modelFormat st = "" → (∀ f, e = ChangeFormat f → f = "") →
  dispatch p e st w = (Ok st', w') → w' = w ∧ modelFormat st' = "".
Proof.
  intros Hf Hpick Hrun.
  assert (launch_disabled (api w) p st = true) as Hdis.
  { unfold launch_disabled, selection_complete. rewrite Hf. cbn.
    apply orb_true_r. }
  destruct e.
  7: { rewrite click_disabled in Hrun by done. by injection Hrun as <- <-. }
  all: apply dispatch_Ok in Hrun as (st1 & Hhandle & ->);
    destruct (run_effects_frame p (Some st) st1) as (_ & _ & -> & _);
    cbn in Hhandle; injection Hhandle as <- <-;
    unfold Box_onClick; try destruct (selected st); cbn; try done.
  all: split; [done |]; by apply Hpick.
Qed.

Lemma no_size_no_launch p e st w st' w' :
  truthy (modelSize st) = false → (∀ v, e = ChangeSize v → truthy v = false) →
  dispatch p e st w = (Ok st', w') → w' = w ∧ truthy (modelSize st') = false.
Proof.
  intros Hs Hpick Hrun.
  assert (launch_disabled (api w) p st = true) as Hdis.
  { unfold launch_disabled, selection_complete. rewrite Hs.
    rewrite andb_false_r. cbn. apply orb_true_r. }
  destruct e.
  7: { rewrite click_disabled in Hrun by done. by injection Hrun as <- <-. }
  all: apply dispatch_Ok in Hrun as (st1 & Hhandle & ->);
    destruct (run_effects_frame p (Some st) st1) as (_ & _ & _ & -> & _);
    cbn in Hhandle; injection Hhandle as <- <-;
    unfold Box_onClick; try destruct (selected st); cbn; try done.
  all: split; [done |]; by apply Hpick.
Qed.

Lemma idle_until_format_picked p es st0 w st w' :
  modelFormat st0 = "" →
  dispatch_all p es st0 w = (Ok st, w') →
  w' = w ∨ Exists (λ e, ∃ f, e = ChangeFormat f ∧ f ≠ "") es.
Proof.
  revert st0 w. induction es as [| e es IH]; intros st0 w Hf.
  - intros [= <- <-]. by left.
  - intros (st1 & w1 & Hstep & Hrest)%dispatch_all_cons_Ok.
    assert ((∀ f, e = ChangeFormat f → f = "")
            ∨ ∃ f, e = ChangeFormat f ∧ f ≠ "") as [Hpick | Hpick].
    { destruct e; try (left; by intros f [=]).
      destruct (decide (value = "")) as [-> | Hne];
        [left; by intros f [= <-] | right; eauto]. }
    + destruct (no_format_no_launch _ _ _ _ _ _ Hf Hpick Hstep) as [-> Hf1].
      destruct (IH _ _ Hf1 Hrest) as [-> | Hex]; [by left | right].
      by apply Exists_cons_tl.
    + right. by apply Exists_cons_hd.
Qed.

Lemma idle_until_size_picked p es st0 w st w' :
  truthy (modelSize st0) = false →
  dispatch_all p es st0 w = (Ok st, w') →
  w' = w ∨ Exists (λ e, ∃ v, e = ChangeSize v ∧ truthy v = true) es.
Proof.
  revert st0 w. induction es as [| e es IH]; intros st0 w Hs.
  - intros [= <- <-]. by left.
  - intros (st1 & w1 & Hstep & Hrest)%dispatch_all_cons_Ok.
    assert ((∀ v, e = ChangeSize v → truthy v = false)
            ∨ ∃ v, e = ChangeSize v ∧ truthy v = true) as [Hpick | Hpick].
    { destruct e; try (left; by intros v [=]).
      destruct (truthy value) eqn:Hv;
        [right; eauto | left; by intros v [= <-]]. }
    + destruct (no_size_no_launch _ _ _ _ _ _ Hs Hpick Hstep) as [-> Hs1].
      destruct (IH _ _ Hs1 Hrest) as [-> | Hex]; [by left | right].
      by apply Exists_cons_tl.
    + right. by apply Exists_cons_hd.
Qed.

(** X15. Nothing reaches the world before a format and a size have been
    picked: a sequence of events on a fresh card that changes the world (the
    flag, the trace, the id generator) holds the pick of a format other than
    the empty one and the pick of a size that is neither empty, zero nor
    NaN. *)
Theorem launch_needs_format_and_size (p : Props) (es : list Event)
    (w w' : World) (st : State) :
  dispatch_all p es (mount p) w = (Ok st, w') →
  w' ≠ w →
  Exists (λ e, ∃ f, e = ChangeFormat f ∧ f ≠ "") es
  ∧ Exists (λ e, ∃ v, e = ChangeSize v ∧ truthy v = true) es.
Proof.
  intros Hrun Hchanged.
  destruct (run_effects_frame p None initial_state) as (_ & _ & Hf & Hs & _).
  split.
  - destruct (idle_until_format_picked p es (mount p) w st w') as [-> | Hex];
      done.
  - destruct (idle_until_size_picked p es (mount p) w st w') as [-> | Hex];
      try done.
    unfold mount. by rewrite Hs.
Qed.

(** Every request of a run carries the id the generator gave the run, and a
    run that sent one has moved the generator on by one. *)
Lemma launch_request_uid ctx p st url w r :
  r ∈ requests (effects_of (launchModel ctx p st url) w) →
  (∃ o, body r = JSON_stringify o
        ∧ ModelDataWithID.model_uid o = uuid_source w (uuid_count w))
  ∧ uuid_count (launchModel ctx p st url w).2 = S (uuid_count w)
  ∧ uuid_source (launchModel ctx p st url w).2 = uuid_source w.
Proof.
  launch_cases ctx p w; intros Hin; trace_member Hin.
  all: subst r; split_and!; try reflexivity; eexists; split; reflexivity.
Qed.

(** X16. Two launches, one after the other, never send the same body: with an
    id generator that does not repeat itself, every request of the second run
    carries a [model_uid] other than that of every request of the first. *)
Theorem launches_use_distinct_ids (ctx1 ctx2 : ApiContext) (p1 p2 : Props)
    (st1 st2 : State) (target1 target2 : string) (w : World) (r1 r2 : Request) :
  (∀ m n, uuid_source w m = uuid_source w n → m = n) →
  r1 ∈ requests (effects_of (launchModel ctx1 p1 st1 target1) w) →
  r2 ∈ requests (effects_of (launchModel ctx2 p2 st2 target2)
                   (launchModel ctx1 p1 st1 target1 w).2) →
  body r1 ≠ body r2
  ∧ ∃ o1 o2, body r1 = JSON_stringify o1 ∧ body r2 = JSON_stringify o2
             ∧ ModelDataWithID.model_uid o1 ≠ ModelDataWithID.model_uid o2.
Proof.
  intros Hinj Hr1 Hr2.
  destruct (launch_request_uid _ _ _ _ _ _ Hr1)
    as ((o1 & Hb1 & Hu1) & Hcount & Hsource).
  destruct (launch_request_uid _ _ _ _ _ _ Hr2) as ((o2 & Hb2 & Hu2) & _ & _).
  rewrite Hcount, Hsource in Hu2.
  assert (ModelDataWithID.model_uid o1 ≠ ModelDataWithID.model_uid o2) as Hne.
  { rewrite Hu1, Hu2. intros Heq%Hinj. lia. }
  split; [| by exists o1, o2].
  rewrite Hb1, Hb2. intros [= ->]. done.
Qed.

(** X17. Picking the empty format, or a size that is empty, zero or NaN,
    writes that cell and leaves the option lists as they were: the lists
    derived for the selection before stay on the card. *)
Theorem falsy_pick_keeps_lists (p : Props) (st : State) (w : World) :
  dispatch p (ChangeFormat "") st w = (Ok (setModelFormat "" st), w)
  ∧ ∀ v, truthy v = false →
         dispatch p (ChangeSize v) st w = (Ok (setModelSize v st), w).
Proof.
  split.
  - assert (sizeOptions_effect (modelData p) (setModelFormat "" st)
            = setModelFormat "" st) as Hsize by done.
    assert (quantizationOptions_effect (modelData p) (setModelFormat "" st)
            = setModelFormat "" st) as Hquant by done.
    unfold dispatch, handle, mbind, M_bind, mret, M_ret. do 2 f_equal.
    unfold run_effects, deps_changed.
    rewrite (bool_decide_eq_true_2 (() = ())) by done. cbn [negb].
    rewrite Hsize.
    destruct (negb (bool_decide (modelFormat st = modelFormat (setModelFormat "" st))));
      rewrite Hquant; by case_match.
  - intros v Hv.
    assert (quantizationOptions_effect (modelData p) (setModelSize v st)
            = setModelSize v st) as Hquant.
    { unfold quantizationOptions_effect. cbn. by rewrite Hv, andb_false_r. }
    unfold dispatch, handle, mbind, M_bind, mret, M_ret. do 2 f_equal.
    unfold run_effects, deps_changed.
    rewrite (bool_decide_eq_true_2 (() = ())) by done.
    rewrite (bool_decide_eq_true_2
               (modelFormat st = modelFormat (setModelSize v st))) by done.
    cbn [negb]. rewrite Hquant. by case_match.
Qed.

(** X18. Leaving the configuration with the undo button and coming back with
    a click on the card gives the card exactly as it was: selection and
    option lists are all kept, and the world is not touched. *)
Theorem undo_then_click_restores (p : Props) (st : State) (w : World) :
  selected st = true →
  dispatch_all p [ClickUndo; ClickCard] st w = (Ok st, w).
Proof.
  intros Hsel. destruct st as [h s f sz q fo so qo]. cbn in Hsel. subst s.
  set (st := {| hover := h; selected := true; modelFormat := f;
                modelSize := sz; quantization := q; formatOptions := fo;
                sizeOptions := so; quantizationOptions := qo |}).
  assert (dispatch p ClickUndo st w = (Ok (setSelected false st), w)) as Hundo.
  { unfold dispatch, handle, mbind, M_bind, mret, M_ret.
    by rewrite run_effects_same_selection. }
  assert (dispatch p ClickCard (setSelected false st) w = (Ok st, w)) as Hclick.
  { unfold dispatch, handle, mbind, M_bind, mret, M_ret.
    by rewrite run_effects_same_selection. }
  cbn [dispatch_all]. unfold mbind at 1, M_bind at 1. rewrite Hundo.
  unfold mbind at 1, M_bind at 1. by rewrite Hclick.
Qed.

Lemma launch_keeps_updating_flag ctx p st url w :
  isUpdatingModel (api (launchModel ctx p st url w).2) = isUpdatingModel (api w).
Proof. launch_cases ctx p w; reflexivity. Qed.

Lemma dispatch_keeps_updating_flag p e st w :
  isUpdatingModel (api (dispatch p e st w).2) = isUpdatingModel (api w).
Proof.
  destruct e; try reflexivity.
  destruct (launch_disabled (api w) p st) eqn:Hdis.
  - by rewrite click_disabled.
  - rewrite click_enabled by done. apply launch_keeps_updating_flag.
Qed.

(** X19. The card only reads the model-updating flag: whatever the events and
    whatever the network answers, also in a run that fails, the flag is after
    them what it was before. *)
Theorem updating_flag_is_never_written (p : Props) (es : list Event)
    (st : State) (w : World) :
  isUpdatingModel (api (dispatch_all p es st w).2) = isUpdatingModel (api w).
Proof.
  revert st w. induction es as [| e es IH]; intros st w; [done |].
  cbn [dispatch_all]. unfold mbind at 1, M_bind at 1.
  pose proof (dispatch_keeps_updating_flag p e st w) as Hstep.
  destruct (dispatch p e st w) as [[st1 | err] w1]; cbn in Hstep |- *.
  - by rewrite IH.
  - done.
Qed.

(** ** The further properties at work on the sample card *)

Lemma enabled_selects_offer_current_options_witness :
  let es := [ClickCard; ChangeFormat "pytorch"; ChangeSize (SizeString "13")] in
  let w := Sample.world Sample.idle [] in
  let st := setQuantization "" (setModelSize (SizeString "13")
              (setSizeOptions [JS.of_Z 7; JS.of_Z 13]
                 (setQuantizationOptions ["int4"] Sample.configured))) in
  modelData Sample.props = Some Sample.llama
  ∧ dispatch_all Sample.props es (mount Sample.props) w = (Ok st, w)
  ∧ size_select_disabled st = false
  ∧ quantization_select_disabled st = false
  ∧ sizeOptions st
    = JS.new_Set
        (map VariantSpec.model_size_in_billions
           (filter (λ spec, VariantSpec.model_format spec = modelFormat st)
              (ModelData.model_specs Sample.llama))).
Proof.
  intros es w st.
  assert (dispatch_all Sample.props es (mount Sample.props) w = (Ok st, w))
    as Hrun by reflexivity.
  split; [reflexivity |]. split; [exact Hrun |].
  split; [reflexivity |]. split; [reflexivity |].
  destruct (enabled_selects_offer_current_options Sample.props Sample.llama
              es w w st eq_refl Hrun) as (_ & Hsizes & _).
  exact (Hsizes eq_refl).
Defined.

Lemma launch_first_rejects_witness :
  let e := TypeError "Failed to fetch" in
  let w := Sample.world Sample.idle [RejectsWith e; Resolves Sample.ok] in
  let t := effects_of
             (launchModel Sample.idle Sample.props Sample.configured
                "http://localhost:9997") w in
  isCallingApi Sample.idle || isUpdatingModel Sample.idle = false
  ∧ modelData Sample.props = Some Sample.llama
  ∧ network w = [RejectsWith e; Resolves Sample.ok]
  ∧ length (requests t) = 1
  ∧ errors_logged t = [e].
Proof.
  intros e w t. split_and!; [reflexivity .. | |].
  all: destruct (launch_first_rejects Sample.idle Sample.props Sample.llama
         Sample.configured "http://localhost:9997" w e [Resolves Sample.ok]
         eq_refl eq_refl eq_refl) as [Heff _];
    subst t; rewrite Heff; reflexivity.
Defined.

Lemma launch_second_rejects_witness :
  let e := TypeError "Failed to fetch" in
  let w := Sample.world Sample.idle [Resolves Sample.ok; RejectsWith e] in
  let t := effects_of
             (launchModel Sample.idle Sample.props Sample.configured
                "http://localhost:9997") w in
  isCallingApi Sample.idle || isUpdatingModel Sample.idle = false
  ∧ modelData Sample.props = Some Sample.llama
  ∧ network w = [Resolves Sample.ok; RejectsWith e]
  ∧ length (requests t) = 2
  ∧ errors_logged t = [e].
Proof.
  intros e w t. split_and!; [reflexivity .. | |].
  all: destruct (launch_second_rejects Sample.idle Sample.props Sample.llama
         Sample.configured "http://localhost:9997" w Sample.ok e []
         eq_refl eq_refl eq_refl) as [Heff _];
    subst t; rewrite Heff; reflexivity.
Defined.

Lemma pending_launch_blocks_every_card_witness :
  let w := Sample.world Sample.idle [] in
  let w1 := (dispatch Sample.props ClickLaunch Sample.configured w).2 in
  launch_disabled (api w) Sample.props Sample.configured = false
  ∧ network w = []
  ∧ isCallingApi (api w1) = true
  ∧ dispatch Sample.props ClickLaunch Sample.configured w1
    = (Ok Sample.configured, w1).
Proof.
  intros w w1. split; [reflexivity |]. split; [reflexivity |].
  destruct (pending_launch_blocks_every_card Sample.props Sample.configured w
              eq_refl (or_introl eq_refl)) as (Hflag & _ & _ & Hblocked).
  split; [exact Hflag | exact (Hblocked Sample.props Sample.configured)].
Defined.

Lemma window_only_after_both_responses_witness :
  let w := Sample.world Sample.idle [Resolves Sample.ok; Resolves Sample.ok] in
  let t := effects_of
             (launchModel Sample.idle Sample.props Sample.configured
                "http://localhost:9997") w in
  WindowOpen "http://localhost:9997/uuid-0" "_blank" "noreferrer" ∈ t
  ∧ (∃ r1 r2, responses_received t = [r1; r2])
  ∧ errors_logged t = [].
Proof.
  intros w t.
  assert (WindowOpen "http://localhost:9997/uuid-0" "_blank" "noreferrer" ∈ t)
    as Hin.
  { apply list_elem_of_In. vm_compute. repeat (first [by left | right]). }
  split; [exact Hin |].
  destruct (window_only_after_both_responses Sample.idle Sample.props
              Sample.configured "http://localhost:9997" w _ _ _ Hin)
    as (Hresp & Herr & _).
  split; [exact Hresp | exact Herr].
Defined.

Lemma logged_error_is_a_rejection_witness :
  let e := TypeError "Failed to fetch" in
  let w := Sample.world Sample.idle [Resolves Sample.ok; RejectsWith e] in
  let t := effects_of
             (launchModel Sample.idle Sample.props Sample.configured
                "http://localhost:9997") w in
  ConsoleError "Error:" e ∈ t
  ∧ errors_logged t = [e]
  ∧ ∀ a b c, WindowOpen a b c ∉ t.
Proof.
  intros e w t.
  assert (ConsoleError "Error:" e ∈ t) as Hin.
  { apply list_elem_of_In. vm_compute. repeat (first [by left | right]). }
  split; [exact Hin |].
  destruct (logged_error_is_a_rejection Sample.idle Sample.props
              Sample.configured "http://localhost:9997" w _ _ Hin)
    as (_ & _ & Herr & Hwin).
  split; [exact Herr | exact Hwin].
Defined.

Lemma flag_lowered_iff_settled_witness :
  let w := Sample.world Sample.idle [Resolves Sample.ok] in
  let t := effects_of
             (launchModel Sample.idle Sample.props Sample.configured
                "http://localhost:9997") w in
  let w' := (launchModel Sample.idle Sample.props Sample.configured
               "http://localhost:9997" w).2 in
  isCallingApi Sample.idle || isUpdatingModel Sample.idle = false
  ∧ modelData Sample.props = Some Sample.llama
  ∧ isCallingApi (api w') = true
  ∧ ∃ req, last t = Some (Fetch req).
Proof.
  intros w t w'. split_and!; [reflexivity .. |].
  destruct (flag_lowered_iff_settled Sample.idle Sample.props Sample.llama
              Sample.configured "http://localhost:9997" w eq_refl eq_refl)
    as (_ & _ & Hpending).
  exact (Hpending eq_refl).
Defined.

Lemma launchModel_without_catalog_witness :
  let p := {| url := "http://localhost:9997"; modelData := None |} in
  let w := Sample.world Sample.idle [Resolves Sample.ok] in
  isCallingApi Sample.idle || isUpdatingModel Sample.idle = false
  ∧ modelData p = None
  ∧ ∃ message w',
      launchModel Sample.idle p Sample.configured "http://localhost:9997" w
      = (Thrown (TypeError message), w')
      ∧ effects_of
          (launchModel Sample.idle p Sample.configured "http://localhost:9997") w
        = [SetIsCallingApi true]
      ∧ isCallingApi (api w') = true.
Proof.
  intros p w. split; [reflexivity |]. split; [reflexivity |].
  exact (launchModel_without_catalog Sample.idle p Sample.configured
           "http://localhost:9997" w eq_refl eq_refl).
Defined.

Lemma only_undo_leaves_configuring_witness :
  let w := Sample.world Sample.idle [] in
  let st' := setModelFormat "ggmlv3"
               (setSizeOptions [JS.of_Z 13]
                  (setQuantizationOptions [] Sample.configured)) in
  dispatch Sample.props (ChangeFormat "ggmlv3") Sample.configured w = (Ok st', w)
  ∧ ChangeFormat "ggmlv3" ≠ ClickUndo
  ∧ selected Sample.configured = true
  ∧ selected st' = true.
Proof.
  intros w st'.
  assert (dispatch Sample.props (ChangeFormat "ggmlv3") Sample.configured w
          = (Ok st', w)) as Hrun by reflexivity.
  assert (ChangeFormat "ggmlv3" ≠ ClickUndo) as Hne by discriminate.
  split; [exact Hrun |]. split; [exact Hne |]. split; [reflexivity |].
  exact (proj1 (only_undo_leaves_configuring Sample.props _ _ _ _ _ Hrun)
           Hne eq_refl).
Defined.

Lemma selection_changes_by_its_select_only_witness :
  let w := Sample.world Sample.idle [] in
  let st' := setModelFormat "ggmlv3"
               (setSizeOptions [JS.of_Z 13]
                  (setQuantizationOptions [] Sample.configured)) in
  dispatch Sample.props (ChangeFormat "ggmlv3") Sample.configured w = (Ok st', w)
  ∧ (modelFormat st' ≠ modelFormat Sample.configured →
     ChangeFormat "ggmlv3" = ChangeFormat (modelFormat st')).
Proof.
  intros w st'.
  assert (dispatch Sample.props (ChangeFormat "ggmlv3") Sample.configured w
          = (Ok st', w)) as Hrun by reflexivity.
  split; [exact Hrun |].
  exact (proj1 (selection_changes_by_its_select_only Sample.props _ _ _ _ _ Hrun)).
Defined.

Lemma quantization_required_iff_shown_witness :
  modelData Sample.props = Some Sample.llama
  ∧ (selection_complete Sample.props Sample.configured = true
     ↔ modelFormat Sample.configured ≠ ""
       ∧ truthy (modelSize Sample.configured) = true
       ∧ (quantization_select_shown Sample.llama Sample.configured = true →
          quantization Sample.configured ≠ "")).
Proof.
  split; [reflexivity |].
  exact (quantization_required_iff_shown Sample.props Sample.llama
           Sample.configured eq_refl).
Defined.

Lemma launch_needs_format_and_size_witness :
  let es := [ ChangeFormat "pytorch"; ChangeSize (SizeNumber (JS.of_Z 7));
              ChangeQuantization "int4"; ClickLaunch ] in
  let w := Sample.world Sample.idle [] in
  let r := dispatch_all Sample.props es (mount Sample.props) w in
  (∃ st, r = (Ok st, r.2))
  ∧ r.2 ≠ w
  ∧ Exists (λ e, ∃ f, e = ChangeFormat f ∧ f ≠ "") es
  ∧ Exists (λ e, ∃ v, e = ChangeSize v ∧ truthy v = true) es.
Proof.
  intros es w r.
  assert (r.2 ≠ w) as Hchanged.
  { intros Heq. apply (f_equal (λ x, length (trace x))) in Heq.
    vm_compute in Heq. discriminate Heq. }
  assert (∃ st, r = (Ok st, r.2)) as [st Hr] by (eexists; reflexivity).
  split; [by exists st |]. split; [exact Hchanged |].
  exact (launch_needs_format_and_size Sample.props es w r.2 st Hr Hchanged).
Defined.

Lemma launches_use_distinct_ids_witness :
  let w := Sample.world Sample.idle
             [RejectsWith (TypeError "Failed to fetch"); Resolves Sample.ok] in
  let run := launchModel Sample.idle Sample.props Sample.configured
               "http://localhost:9997" in
  let r1 := post "http://localhost:9997/v1/models"
              (launch_body Sample.llama Sample.configured "uuid-0") in
  let r2 := post "http://localhost:9997/v1/models"
              (launch_body Sample.llama Sample.configured "uuid-1") in
  (∀ m n, uuid_source w m = uuid_source w n → m = n)
  ∧ r1 ∈ requests (effects_of run w)
  ∧ r2 ∈ requests (effects_of run (run w).2)
  ∧ body r1 ≠ body r2.
Proof.
  intros w run r1 r2.
  assert (∀ m n, uuid_source w m = uuid_source w n → m = n) as Hinj.
  { intros m n Heq. cbn in Heq. apply String.app_inj in Heq.
    by apply pretty_nat_inj in Heq. }
  assert (r1 ∈ requests (effects_of run w)) as H1.
  { apply list_elem_of_In. vm_compute. by left. }
  assert (r2 ∈ requests (effects_of run (run w).2)) as H2.
  { apply list_elem_of_In. vm_compute. by left. }
  split; [exact Hinj |]. split; [exact H1 |]. split; [exact H2 |].
  exact (proj1 (launches_use_distinct_ids Sample.idle Sample.idle Sample.props
                  Sample.props Sample.configured Sample.configured _ _ w r1 r2
                  Hinj H1 H2)).
Defined.

Lemma falsy_pick_keeps_lists_witness :
  let w := Sample.world Sample.idle [] in
  truthy (SizeNumber (JS.of_Z 0)) = false
  ∧ dispatch Sample.props (ChangeSize (SizeNumber (JS.of_Z 0))) Sample.configured w
    = (Ok (setModelSize (SizeNumber (JS.of_Z 0)) Sample.configured), w).
Proof.
  intros w.
  assert (truthy (SizeNumber (JS.of_Z 0)) = false) as Hzero by reflexivity.
  split; [exact Hzero |].
  exact (proj2 (falsy_pick_keeps_lists Sample.props Sample.configured w) _ Hzero).
Defined.

Lemma undo_then_click_restores_witness :
  selected Sample.configured = true
  ∧ dispatch_all Sample.props [ClickUndo; ClickCard] Sample.configured
      (Sample.world Sample.idle [])
    = (Ok Sample.configured, Sample.world Sample.idle []).
Proof.
  split; [reflexivity |].
  exact (undo_then_click_restores Sample.props Sample.configured
           (Sample.world Sample.idle []) eq_refl).
Defined.
